(** * CannaView screenshot service: a shallow embedding and its properties

    The development follows the layout of the Python package [app]:

    - [Py]       the few Python built-ins the service relies on
                 ([str.__contains__], [str.split], [repr], [base64.b64encode]);
    - [Config]   [app/config.py]: [Settings] and [is_domain_allowed];
    - [Auth]     [app/auth.py]: [verify_api_key];
    - [Models]   [app/models.py]: the bounds of [ScreenshotRequest];
    - [Service]  [app/screenshot.py]: [ScreenshotService] over an explicit
                 world (session fields, open pages, log of driver calls);
    - [Main]     [app/main.py]: the [take_screenshot] endpoint;
    - [UrlSpec]  the host of a URL, a notion the package itself never uses;
    - [Scenario] a few concrete drivers and worlds, for runs by evaluation;
    - [Base64]   the decoder a client applies to [image_base64];
    - [Log]      counting and describing the calls in the log;
    - [App]      [app/main.py]: [root], [health_check], [lifespan] and the
                 serving of requests;
    - [Result], [Demo]  accessors and further concrete runs.

    Strings are byte strings holding UTF-8 text.  Substring search and
    splitting on an ASCII separator agree on bytes and on code points. *)

From stdpp Require Import gmap strings list.
From Stdlib Require Import ZArith QArith Ascii String.

Set Warnings "-register-all".

Local Open Scope string_scope.
Local Open Scope Z_scope.

(** ** Python built-ins *)

Module Py.

(** [s.startswith(p)] *)
Fixpoint startswith (p s : string) : bool :=
  match p, s with
  | EmptyString, _ => true
  | String _ _, EmptyString => false
  | String a p', String b s' => if Ascii.eqb a b then startswith p' s' else false
  end.

(** [needle in hay] for two [str] values: some position of [hay] starts with
    [needle].  The empty needle occurs in every string, the empty one
    included. *)
Fixpoint contains (needle hay : string) : bool :=
  match hay with
  | EmptyString => startswith needle EmptyString
  | String _ hay' => startswith needle hay || contains needle hay'
  end.

(** What "occurs as a substring" means, independently of the search. *)
Definition occurs_in (needle hay : string) : Prop :=
  exists pre post, hay = pre +:+ needle +:+ post.

(** [s.split(sep)] for a one-character separator.  Splitting the empty
    string gives one empty field. *)
Fixpoint split (sep : ascii) (s : string) : list string :=
  match s with
  | EmptyString => [EmptyString]
  | String c s' =>
      if Ascii.eqb c sep then EmptyString :: split sep s'
      else match split sep s' with
           | field :: fields => String c field :: fields
           | [] => [String c EmptyString]
           end
  end.

Definition hex_digit (n : N) : ascii :=
  if (n <? 10)%N then ascii_of_N (48 + n) else ascii_of_N (87 + n).

Definition backslash : ascii := ascii_of_N 92.
Definition squote : ascii := ascii_of_N 39.
Definition dquote : ascii := ascii_of_N 34.

Fixpoint has_char (c : ascii) (s : string) : bool :=
  match s with
  | EmptyString => false
  | String d s' => Ascii.eqb c d || has_char c s'
  end.

(** The quote [repr] puts around a [str]: a single quote, unless the text
    holds a single quote and no double quote. *)
Definition repr_quote (s : string) : ascii :=
  if has_char squote s && negb (has_char dquote s) then dquote else squote.

Definition repr_char (q c : ascii) : string :=
  let n := N_of_ascii c in
  if Ascii.eqb c q || Ascii.eqb c backslash then String backslash (String c EmptyString)
  else if (n =? 9)%N then String backslash "t"
  else if (n =? 10)%N then String backslash "n"
  else if (n =? 13)%N then String backslash "r"
  else if (n <? 32)%N || (n =? 127)%N then
    String backslash (String "x" (String (hex_digit (n / 16)) (String (hex_digit (n mod 16)) EmptyString)))
  else String c EmptyString.

Fixpoint repr_body (q : ascii) (s : string) : string :=
  match s with
  | EmptyString => EmptyString
  | String c s' => repr_char q c +:+ repr_body q s'
  end.

(** [repr(s)] for a [str] of ASCII characters.  Bytes above 127 are copied,
    which is what [repr] does with the printable characters outside ASCII;
    the others it writes as escapes, and there the model departs from
    Python.  No property below is about a text outside ASCII. *)
Definition repr_str (s : string) : string :=
  let q := repr_quote s in
  String q (repr_body q s +:+ String q EmptyString).

Fixpoint join (sep : string) (l : list string) : string :=
  match l with
  | [] => EmptyString
  | [x] => x
  | x :: rest => x +:+ sep +:+ join sep rest
  end.

(** [repr(l)] (and so [str(l)] and [f"{l}"]) for a list of [str]. *)
Definition repr_list (l : list string) : string :=
  "[" +:+ join ", " (map repr_str l) +:+ "]".

(** The base64 alphabet, by index 0..63. *)
Definition b64_char (n : N) : ascii :=
  if (n <? 26)%N then ascii_of_N (65 + n)
  else if (n <? 52)%N then ascii_of_N (97 + (n - 26))
  else if (n <? 62)%N then ascii_of_N (48 + (n - 52))
  else if (n =? 62)%N then ascii_of_N 43
  else ascii_of_N 47.

(** [base64.b64encode(data).decode("utf-8")]: three bytes give four
    characters, a last group of one or two bytes is padded with [=]. *)
Fixpoint b64encode (data : list Byte.byte) : string :=
  match data with
  | [] => EmptyString
  | [a] =>
      let x := Byte.to_N a in
      String (b64_char (x / 4)) (String (b64_char ((x mod 4) * 16)) "==")
  | [a; b] =>
      let x := Byte.to_N a in
      let y := Byte.to_N b in
      String (b64_char (x / 4))
        (String (b64_char ((x mod 4) * 16 + y / 16))
           (String (b64_char ((y mod 16) * 4)) "="))
  | a :: b :: c :: rest =>
      let x := Byte.to_N a in
      let y := Byte.to_N b in
      let z := Byte.to_N c in
      String (b64_char (x / 4))
        (String (b64_char ((x mod 4) * 16 + y / 16))
           (String (b64_char ((y mod 16) * 4 + z / 64))
              (String (b64_char (z mod 64)) (b64encode rest))))
  end%N.

(** The values the service puts in its result dictionaries.  A [dict] keeps
    its items in insertion order; the literals of the service have distinct
    keys. *)
Inductive value :=
| VNone
| VBool (b : bool)
| VInt (n : Z)
| VStr (s : string)
| VDict (items : list (string * value)).

Fixpoint items_get (key : string) (items : list (string * value)) : option value :=
  match items with
  | [] => None
  | (k, v) :: rest => if String.eqb k key then Some v else items_get key rest
  end.

(** [d.get(key)]; a value that is not a [dict] has no item. *)
Definition get (key : string) (d : value) : option value :=
  match d with
  | VDict items => items_get key items
  | _ => None
  end.

(** Truth value of an object, as [if x:] and [not x] test it. *)
Definition truthy (v : value) : bool :=
  match v with
  | VNone => false
  | VBool b => b
  | VInt n => negb (n =? 0)%Z
  | VStr s => negb (String.eqb s EmptyString)
  | VDict items => match items with [] => false | _ => true end
  end.

(** Truth value of an [Optional[str]]: [None] and the empty string are
    false. *)
Definition truthy_str (o : option string) : bool :=
  match o with
  | None => false
  | Some s => negb (String.eqb s EmptyString)
  end.

End Py.

(** ** app/config.py *)

Module Config.

(** The fields of [Settings] the request path reads.  The numeric limits
    [MAX_WAIT_TIME], [MAX_WIDTH] and [MAX_HEIGHT] are read by no code of the
    package: the request bounds are the literals of [app/models.py]. *)
Record Settings := {
  API_KEY : string;
  ALLOWED_DOMAINS : list string;
  BROWSER_TYPE : string
}.

(** [os.getenv(name, default)] over the process environment. *)
Definition getenv (environ : gmap string string) (name dflt : string) : string :=
  default dflt (environ !! name).

Definition comma : ascii := ascii_of_N 44.

(** The class attributes, evaluated once when the module is imported. *)
Definition load (environ : gmap string string) : Settings := {|
  API_KEY := getenv environ "API_KEY" "change-me-in-production";
  ALLOWED_DOMAINS :=
    Py.split comma (getenv environ "ALLOWED_DOMAINS" "easydis.io,www.easydis.io");
  BROWSER_TYPE := getenv environ "BROWSER_TYPE" "chromium"
|}.

(** The loop of [is_domain_allowed] over a list of domains: return at the
    first domain found in the URL. *)
Fixpoint any_domain_in (domains : list string) (url : string) : bool :=
  match domains with
  | [] => false
  | domain :: rest =>
      if Py.contains domain url then true else any_domain_in rest url
  end.

Definition is_domain_allowed (cls : Settings) (url : string) : bool :=
  any_domain_in (ALLOWED_DOMAINS cls) url.

End Config.

(** ** app/auth.py *)

Module Auth.

(** [fastapi.HTTPException(status_code, detail)] *)
Record HTTPException := {
  status_code : Z;
  detail : Py.value
}.

Definition HTTP_401_UNAUTHORIZED : Z := 401.
Definition HTTP_403_FORBIDDEN : Z := 403.
Definition HTTP_500_INTERNAL_SERVER_ERROR : Z := 500.

Definition missing_key : HTTPException :=
  {| status_code := HTTP_401_UNAUTHORIZED;
     detail := Py.VStr "Missing API Key. Include X-API-Key header in your request." |}.

Definition invalid_key : HTTPException :=
  {| status_code := HTTP_403_FORBIDDEN; detail := Py.VStr "Invalid API Key" |}.

(** The header scheme [APIKeyHeader(name="X-API-Key", auto_error=False)] of
    the web framework, applied to the [X-API-Key] header of a request
    ([None] when the request has no such header): it hands over the text of
    the header, and [None] when the header is missing or empty. *)
Definition api_key_header (x_api_key : option string) : option string :=
  if negb (Py.truthy_str x_api_key) then None else x_api_key.

(** [verify_api_key], on what the header scheme hands over.  [inl] is a
    raised [HTTPException], [inr] the returned key. *)
Definition verify_api_key (settings : Config.Settings) (api_key : option string)
  : HTTPException + string :=
  if negb (Py.truthy_str api_key) then inl missing_key
  else
    match api_key with
    | Some key =>
        if negb (String.eqb key (Config.API_KEY settings)) then inl invalid_key
        else inr key
    | None => inl missing_key
    end.

End Auth.

(** ** app/models.py *)

Module Models.

(** [ScreenshotRequest] after validation.  [url] holds [str(request.url)],
    the text the endpoint works with. *)
Record ScreenshotRequest := {
  url : string;
  width : Z;
  height : Z;
  wait_time : Z;
  wait_for_selector : option string;
  full_page : bool
}.

(** The body once each field that is present has been read at the type its
    declaration names ([read_body] below): a field that is absent is
    [None]. *)
Record Body := {
  body_url : option string;
  body_width : option Z;
  body_height : option Z;
  body_wait_time : option Z;
  body_wait_for_selector : option string;
  body_full_page : option bool
}.

(** [Field(dflt, ge=lo, le=hi)] on an [int]: an absent field takes the
    default, a present one must lie in the closed range. *)
Definition int_field (dflt lo hi : Z) (raw : option Z) : option Z :=
  match raw with
  | None => Some dflt
  | Some n => if (lo <=? n) && (n <=? hi) then Some n else None
  end.

(** A field that is present with a value outside the closed range. *)
Definition out_of_range (lo hi : Z) (raw : option Z) : Prop :=
  exists n, raw = Some n /\ (n < lo \/ hi < n).

Definition check_width : option Z -> option Z := int_field 1920 800 3840.
Definition check_height : option Z -> option Z := int_field 1080 600 2160.
Definition check_wait_time : option Z -> option Z := int_field 10000 0 60000.

Section Validation.

(** Parsing of an [HttpUrl], from the validation library: [None] when the
    text is rejected, otherwise the text [str] gives for the parsed URL. *)
Variable http_url : string -> option string.

(** [url] is required ([Field(...)]). *)
Definition check_url (raw : option string) : option string :=
  match raw with
  | None => None
  | Some s => http_url s
  end.

Definition field_error {A} (name : string) (checked : option A) : list string :=
  match checked with
  | None => [name]
  | Some _ => []
  end.

(** Validation of a body against [ScreenshotRequest]: the model, or the
    names of the fields that were rejected, in declaration order. *)
Definition validate (b : Body) : list string + ScreenshotRequest :=
  match check_url (body_url b), check_width (body_width b),
        check_height (body_height b), check_wait_time (body_wait_time b) with
  | Some u, Some w, Some h, Some t =>
      inr {| url := u; width := w; height := h; wait_time := t;
             wait_for_selector := body_wait_for_selector b;
             full_page := default false (body_full_page b) |}
  | cu, cw, ch, ct =>
      inl (field_error "url" cu ++ field_error "width" cw
           ++ field_error "height" ch ++ field_error "wait_time" ct)%list
  end.

End Validation.

(** [ScreenshotResponse] *)
Record ScreenshotResponse := {
  success : bool;
  image_base64 : option string;
  metadata : option Py.value;
  error : option string
}.

(** A JSON value; a number is an integer or not. *)
Inductive Json :=
| JNull
| JBool (b : bool)
| JInt (n : Z)
| JFloat (q : Q)
| JStr (s : string)
| JList (items : list Json)
| JDict (items : list (string * Json)).

Definition as_int (j : Json) : option Z :=
  match j with JInt n => Some n | _ => None end.

Definition as_str (j : Json) : option string :=
  match j with JStr s => Some s | _ => None end.

Definition as_bool (j : Json) : option bool :=
  match j with JBool b => Some b | _ => None end.

(** [Optional[str]]: [null] is the absent value. *)
Definition nullable_str (raw : option Json) : option (option string) :=
  match raw with
  | None | Some JNull => Some None
  | Some (JStr s) => Some (Some s)
  | Some _ => None
  end.

(** A field of the parsed body: absent, or present with the JSON type its
    declaration names.  [None] when the field holds a value of another
    type, [null] included. *)
Definition typed_field {A} (as_type : Json -> option A) (raw : option Json)
  : option (option A) :=
  match raw with
  | None => Some None
  | Some j =>
      match as_type j with
      | Some a => Some (Some a)
      | None => None
      end
  end.

(** The typed view of a parsed JSON object, when every field that is
    present has the JSON type its declaration names: a string for [url], a
    string or [null] for [wait_for_selector], an integer for [width],
    [height] and [wait_time], a boolean for [full_page].  Keys the model
    does not declare are ignored.  What the validation library makes of a
    value of another type (a conversion or an error) is not modelled:
    [read_body] is [None] there. *)
Definition read_body (object : gmap string Json) : option Body :=
  match typed_field as_str (object !! "url"),
        typed_field as_int (object !! "width"),
        typed_field as_int (object !! "height"),
        typed_field as_int (object !! "wait_time"),
        nullable_str (object !! "wait_for_selector"),
        typed_field as_bool (object !! "full_page") with
  | Some u, Some w, Some h, Some t, Some sel, Some fp =>
      Some {| body_url := u; body_width := w; body_height := h;
              body_wait_time := t; body_wait_for_selector := sel;
              body_full_page := fp |}
  | _, _, _, _, _, _ => None
  end.

End Models.

(** ** app/screenshot.py *)

Module Service.

(** Objects of the automation driver are known by an identity. *)
Definition Handle := nat.
Definition Page := nat.

(** A Python exception: its class name and the text [str(e)] gives. *)
Record PyExn := {
  exn_class : string;
  exn_text : string
}.

(** [Exception(msg)] *)
Definition Exception (msg : string) : PyExn :=
  {| exn_class := "Exception"; exn_text := msg |}.

(** The built-in classes that derive from [BaseException] and not from
    [Exception]; [CancelledError] is the one of [asyncio]. *)
Definition base_only_classes : list string :=
  ["BaseException"; "BaseExceptionGroup"; "GeneratorExit"; "KeyboardInterrupt";
   "SystemExit"; "CancelledError"].

(** [isinstance(e, Exception)], by the name of the class of [e]: a class
    that is not listed above is taken to derive from [Exception]. *)
Definition is_exception (e : PyExn) : bool :=
  negb (List.existsb (String.eqb (exn_class e)) base_only_classes).

(** The calls the service makes on the driver, with their arguments. *)
Inductive Call :=
| AsyncPlaywrightStart
| ChromiumLaunch (pw : Handle) (headless : bool)
| BrowserNewPage (browser : Handle) (vw vh : Z)
| PageGoto (page : Page) (target wait_until : string) (timeout : Z)
| PageWaitForSelector (page : Page) (selector : string) (timeout : Z)
| PageWaitForTimeout (page : Page) (ms : Z)
| PageEvaluate (page : Page) (expression : string)
| PageScreenshot (page : Page) (type : string) (with_full_page : bool)
| PageClose (page : Page)
| BrowserClose (browser : Handle)
| PlaywrightStop (pw : Handle).

(** How an awaited call ends. *)
Inductive Reply (A : Type) :=
| Returned (a : A)
| Raised (e : PyExn).
Arguments Returned {A} a.
Arguments Raised {A} e.

(** The browser, the pages it loads and the clock are outside the package.
    A driver answers each call from the whole log of calls so far, newest
    first, the call being answered at its head; nothing else is assumed of
    it.  [clock] is [time.time()], in seconds. *)
Record Driver := {
  answer_handle : list Call -> Reply Handle;
  answer_page : list Call -> Reply Page;
  answer_unit : list Call -> Reply unit;
  answer_value : list Call -> Reply Py.value;
  answer_bytes : list Call -> Reply (list Byte.byte);
  clock : list Call -> Q
}.

(** The attributes [__init__] sets on a [ScreenshotService]. *)
Record ScreenshotService := {
  browser : option Handle;
  playwright : option Handle
}.

(** [ScreenshotService()] *)
Definition new_service : ScreenshotService :=
  {| browser := None; playwright := None |}.

(** The singleton [screenshot_service], the pages that are open in the
    browser, and the log of driver calls. *)
Record World := {
  self : ScreenshotService;
  open_pages : list Page;
  log : list Call
}.

Definition set_self (s : ScreenshotService) (w : World) : World :=
  {| self := s; open_pages := open_pages w; log := log w |}.

Definition set_log (l : list Call) (w : World) : World :=
  {| self := self w; open_pages := open_pages w; log := l |}.

Definition set_open_pages (ps : list Page) (w : World) : World :=
  {| self := self w; open_pages := ps; log := log w |}.

Fixpoint remove_page (p : Page) (ps : list Page) : list Page :=
  match ps with
  | [] => []
  | q :: rest => if Nat.eqb p q then rest else q :: remove_page p rest
  end.

(** *** Computations that may raise, over a state *)

Definition M (S A : Type) : Type := S -> Reply A * S.

Definition ret {S A} (a : A) : M S A := fun s => (Returned a, s).

Definition raise {S A} (e : PyExn) : M S A := fun s => (Raised e, s).

Definition bind {S A B} (m : M S A) (k : A -> M S B) : M S B :=
  fun s =>
    match m s with
    | (Returned a, s') => k a s'
    | (Raised e, s') => (Raised e, s')
    end.

Declare Scope py_scope.
Delimit Scope py_scope with py.
Notation "x <- m ;; k" := (bind m (fun x => k))
  (at level 100, m at next level, right associativity) : py_scope.
Notation "m ;; k" := (bind m (fun _ => k))
  (at level 100, right associativity) : py_scope.

(** [try: m except Exception as e: handler e].  An exception whose class
    does not derive from [Exception] is not caught. *)
Definition try_except {S A} (m : M S A) (handler : PyExn -> M S A) : M S A :=
  fun s =>
    match m s with
    | (Returned a, s') => (Returned a, s')
    | (Raised e, s') =>
        if is_exception e then handler e s' else (Raised e, s')
    end.

(** [try: m finally: final].  The final block runs on both ways out of [m];
    when it raises, its exception replaces the pending return or
    exception. *)
Definition try_finally {S A} (m : M S A) (final : M S unit) : M S A :=
  fun s =>
    match m s with
    | (r, s') =>
        match final s' with
        | (Returned _, s'') => (r, s'')
        | (Raised e, s'') => (Raised e, s'')
        end
    end.

(** [int((now - start) * 1000)]: truncation toward zero.  Readings are
    exact rationals; the rounding of floating point is left out. *)
Definition elapsed_ms (start now : Q) : Z :=
  let d := Qmult (Qminus now start) (inject_Z 1000) in
  Z.quot (Qnum d) (Z.pos (Qden d)).

(** The expression handed to [page.evaluate]: the selector is pasted
    between double quotes. *)
Definition count_expression (selector : string) : string :=
  "document.querySelectorAll(" +:+ String Py.dquote selector
    +:+ String Py.dquote ").length".

(** A selector the pasting leaves as it is: between the double quotes the
    text reads back, as a string literal of the page's language, as the
    selector itself.  A double quote, a backslash or a line break in the
    selector would end, alter or break the literal. *)
Fixpoint pastes_unchanged (selector : string) : bool :=
  match selector with
  | EmptyString => true
  | String c rest =>
      negb (Ascii.eqb c Py.dquote || Ascii.eqb c Py.backslash
            || (N_of_ascii c =? 10)%N || (N_of_ascii c =? 13)%N)
      && pastes_unchanged rest
  end.

Section WithDriver.

Variable drv : Driver.

Definition get_self : M World ScreenshotService :=
  fun w => (Returned (self w), w).

Definition put_self (s : ScreenshotService) : M World unit :=
  fun w => (Returned tt, set_self s w).

(** [await] on a driver call: the call is logged, then answered. *)
Definition await {A} (answer : Driver -> list Call -> Reply A) (c : Call)
  : M World A :=
  fun w => let l := c :: log w in (answer drv l, set_log l w).

(** [time.time()] *)
Definition time_time : M World Q :=
  fun w => (Returned (clock drv (log w)), w).

(** [browser.new_page(viewport=...)]: a page that was handed out is open. *)
Definition new_page (b : Handle) (vw vh : Z) : M World Page :=
  (p <- await answer_page (BrowserNewPage b vw vh) ;;
   fun w => (Returned p, set_open_pages (p :: open_pages w) w))%py.

(** [page.close()]: a close that returns leaves the page closed. *)
Definition page_close (p : Page) : M World unit :=
  (await answer_unit (PageClose p) ;;
   fun w => (Returned tt, set_open_pages (remove_page p (open_pages w)) w))%py.

(** [browser.close()]: closes the browser with all its pages. *)
Definition browser_close (b : Handle) : M World unit :=
  (await answer_unit (BrowserClose b) ;;
   fun w => (Returned tt, set_open_pages [] w))%py.

(** [ScreenshotService.initialize] *)
Definition initialize : M World unit :=
  (s <- get_self ;;
   match playwright s with
   | None =>
       pw <- await answer_handle AsyncPlaywrightStart ;;
       put_self {| browser := browser s; playwright := Some pw |} ;;
       b <- await answer_handle (ChromiumLaunch pw true) ;;
       put_self {| browser := Some b; playwright := Some pw |}
   | Some _ => ret tt
   end)%py.

(** [ScreenshotService.cleanup] *)
Definition cleanup : M World unit :=
  (s <- get_self ;;
   match browser s with
   | Some b => browser_close b
   | None => ret tt
   end ;;
   match playwright s with
   | Some pw => await answer_unit (PlaywrightStop pw)
   | None => ret tt
   end)%py.

(** The locals of [capture_screenshot] that outlive the [try] block. *)
Record Frame := {
  world : World;
  page : option Page
}.

Definition enter (w : World) : Frame := {| world := w; page := None |}.

Definition lift {A} (m : M World A) : M Frame A :=
  fun f =>
    match m (world f) with
    | (r, w) => (r, {| world := w; page := page f |})
    end.

Definition set_page (p : Page) : M Frame unit :=
  fun f => (Returned tt, {| world := world f; page := Some p |}).

Definition get_page : M Frame (option Page) :=
  fun f => (Returned (page f), f).

(** [if wait_for_selector: k(wait_for_selector) else: otherwise] *)
Definition if_selector {A} (wait_for_selector : option string)
    (k : string -> M Frame A) (otherwise : M Frame A) : M Frame A :=
  match wait_for_selector with
  | Some selector => if Py.truthy_str (Some selector) then k selector else otherwise
  | None => otherwise
  end.

Definition success_result (image_base64 : string) (capture_time size : Z)
    (url : string) (width height : Z) (product_count : Py.value) : Py.value :=
  Py.VDict
    [("success", Py.VBool true);
     ("image_base64", Py.VStr image_base64);
     ("metadata",
      Py.VDict
        [("capture_time_ms", Py.VInt capture_time);
         ("image_size_bytes", Py.VInt size);
         ("url", Py.VStr url);
         ("dimensions",
          Py.VDict [("width", Py.VInt width); ("height", Py.VInt height)]);
         ("product_count", product_count)])].

Definition failure_result (error : string) (capture_time : Z) (url : string)
  : Py.value :=
  Py.VDict
    [("success", Py.VBool false);
     ("error", Py.VStr error);
     ("metadata",
      Py.VDict
        [("capture_time_ms", Py.VInt capture_time); ("url", Py.VStr url)])].

Section Capture.

Variables (url : string) (width height wait_time : Z)
          (wait_for_selector : option string) (full_page : bool).

(** The [try] block of [capture_screenshot]. *)
Definition capture_try (start_time : Q) : M Frame Py.value :=
  (lift initialize ;;
   s <- lift get_self ;;
   match browser s with
   | None => raise (Exception "Browser not initialized")
   | Some b =>
       p <- lift (new_page b width height) ;;
       set_page p ;;
       lift (await answer_unit (PageGoto p url "domcontentloaded" 60000)) ;;
       if_selector wait_for_selector
         (fun selector =>
            try_except
              (lift (await answer_unit (PageWaitForSelector p selector 30000)))
              (fun _ => ret tt))
         (ret tt) ;;
       (if wait_time >? 0
        then lift (await answer_unit (PageWaitForTimeout p wait_time))
        else ret tt) ;;
       product_count <-
         if_selector wait_for_selector
           (fun selector =>
              lift (await answer_value (PageEvaluate p (count_expression selector))))
           (ret (Py.VInt 0)) ;;
       screenshot_bytes <- lift (await answer_bytes (PageScreenshot p "png" full_page)) ;;
       let image_base64 := Py.b64encode screenshot_bytes in
       now <- lift time_time ;;
       let capture_time := elapsed_ms start_time now in
       ret (success_result image_base64 capture_time
              (Z.of_nat (List.length screenshot_bytes)) url width height
              (if Py.truthy_str wait_for_selector then product_count else Py.VNone))
   end)%py.

(** The [except Exception as e] block. *)
Definition capture_except (start_time : Q) (e : PyExn) : M Frame Py.value :=
  (now <- lift time_time ;;
   ret (failure_result (exn_text e) (elapsed_ms start_time now) url))%py.

(** The [finally] block. *)
Definition capture_finally : M Frame unit :=
  (p <- get_page ;;
   match p with
   | Some p => lift (page_close p)
   | None => ret tt
   end)%py.

(** [ScreenshotService.capture_screenshot] *)
Definition capture_screenshot : M World Py.value :=
  fun w =>
    let start_time := clock drv (log w) in
    match try_finally
            (try_except (capture_try start_time) (capture_except start_time))
            capture_finally (enter w) with
    | (r, f) => (r, world f)
    end.

End Capture.

End WithDriver.

(** *** Assumptions on the driver, for the statements that need one *)

(** [page.close()] never raises. *)
Definition close_returns (drv : Driver) : Prop :=
  forall l p, answer_unit drv (PageClose p :: l) = Returned tt.

(** Every step of a capture returns, the wait for the selector apart: it
    may return, or raise an exception of a class deriving from [Exception],
    a timeout among them.  Counting the elements that match a selector on a
    page gives [count page selector] when the pasting leaves the selector
    unchanged; nothing is assumed of the count for another selector. *)
Record steps_return (drv : Driver) (count : Page -> string -> Z) : Prop := {
  start_returns :
    forall l, exists pw, answer_handle drv (AsyncPlaywrightStart :: l) = Returned pw;
  launch_returns :
    forall l pw headless,
      exists b, answer_handle drv (ChromiumLaunch pw headless :: l) = Returned b;
  new_page_returns :
    forall l b vw vh,
      exists p, answer_page drv (BrowserNewPage b vw vh :: l) = Returned p;
  goto_returns :
    forall l p target wait_until timeout,
      answer_unit drv (PageGoto p target wait_until timeout :: l) = Returned tt;
  wait_for_timeout_returns :
    forall l p ms, answer_unit drv (PageWaitForTimeout p ms :: l) = Returned tt;
  selector_wait_ordinary :
    forall l p selector timeout e,
      answer_unit drv (PageWaitForSelector p selector timeout :: l) = Raised e ->
      is_exception e = true;
  evaluate_counts :
    forall l p selector,
      pastes_unchanged selector = true ->
      answer_value drv (PageEvaluate p (count_expression selector) :: l)
      = Returned (Py.VInt (count p selector));
  screenshot_returns :
    forall l p type with_full_page,
      exists data,
        answer_bytes drv (PageScreenshot p type with_full_page :: l) = Returned data;
  steps_close_returns : close_returns drv
}.

(** The session is not left with a driver and no browser (the state after a
    launch that failed). *)
Definition session_usable (w : World) : Prop :=
  playwright (self w) = None \/ browser (self w) <> None.

(** The [product_count] item of a result's metadata. *)
Definition product_count_of (result : Py.value) : option Py.value :=
  match Py.get "metadata" result with
  | Some meta => Py.get "product_count" meta
  | None => None
  end.

End Service.

(** ** app/main.py *)

Module Main.

Import Service.

(** How a request to [POST /screenshot] ends. *)
Inductive Outcome :=
| Responded (r : Models.ScreenshotResponse)
| Failed (e : Auth.HTTPException)
| Unprocessable (fields : list string)
| Crashed (e : PyExn).

Definition optional_str (o : option Py.value) : option (option string) :=
  match o with
  | None | Some Py.VNone => Some None
  | Some (Py.VStr s) => Some (Some s)
  | Some _ => None
  end.

Definition optional_dict (o : option Py.value) : option (option Py.value) :=
  match o with
  | None | Some Py.VNone => Some None
  | Some (Py.VDict items) => Some (Some (Py.VDict items))
  | Some _ => None
  end.

(** The response model built from the items of [result], as keyword
    arguments: [None] when the fields do not fit the model. *)
Definition response_of (result : Py.value) : option Models.ScreenshotResponse :=
  match Py.get "success" result,
        optional_str (Py.get "image_base64" result),
        optional_dict (Py.get "metadata" result),
        optional_str (Py.get "error" result) with
  | Some (Py.VBool ok), Some image, Some meta, Some err =>
      Some {| Models.success := ok; Models.image_base64 := image;
              Models.metadata := meta; Models.error := err |}
  | _, _, _, _ => None
  end.

Definition domain_not_allowed (settings : Config.Settings) : Auth.HTTPException :=
  {| Auth.status_code := Auth.HTTP_403_FORBIDDEN;
     Auth.detail :=
       Py.VStr ("Domain not allowed. Allowed domains: "
                +:+ Py.repr_list (Config.ALLOWED_DOMAINS settings)) |}.

Section Endpoint.

Variable settings : Config.Settings.
Variable drv : Driver.

(** The body of the [take_screenshot] endpoint. *)
Definition take_screenshot (request : Models.ScreenshotRequest) (api_key : string)
  : World -> Outcome * World :=
  fun w =>
    let url_str := Models.url request in
    if negb (Config.is_domain_allowed settings url_str) then
      (Failed (domain_not_allowed settings), w)
    else
      match capture_screenshot drv url_str (Models.width request)
              (Models.height request) (Models.wait_time request)
              (Models.wait_for_selector request) (Models.full_page request) w with
      | (Raised e, w') => (Crashed e, w')
      | (Returned result, w') =>
          match Py.get "success" result with
          | None => (Crashed {| exn_class := "KeyError"; exn_text := "'success'" |}, w')
          | Some ok =>
              if negb (Py.truthy ok) then
                (Failed {| Auth.status_code := Auth.HTTP_500_INTERNAL_SERVER_ERROR;
                           Auth.detail :=
                             default (Py.VStr "Screenshot capture failed")
                                     (Py.get "error" result) |}, w')
              else
                match response_of result with
                | Some r => (Responded r, w')
                | None =>
                    (Crashed {| exn_class := "ValidationError";
                                exn_text := "ScreenshotResponse" |}, w')
                end
          end
      end.

(** A request to [POST /screenshot] as the framework routes it: the
    [Depends(verify_api_key)] guard on the [X-API-Key] header, then
    validation of the body against [ScreenshotRequest], then the endpoint. *)
Definition post_screenshot (http_url : string -> option string)
    (x_api_key : option string) (body : Models.Body) : World -> Outcome * World :=
  fun w =>
    match Auth.verify_api_key settings (Auth.api_key_header x_api_key) with
    | inl e => (Failed e, w)
    | inr api_key =>
        match Models.validate http_url body with
        | inl fields => (Unprocessable fields, w)
        | inr request => take_screenshot request api_key w
        end
    end.

End Endpoint.

End Main.

(** ** The host of a URL

    The package never takes a URL apart.  The host is defined here, by the
    usual reading of a URL, to compare a check on the host with the check
    the package makes on the whole text. *)

Module UrlSpec.

Definition drop3 (s : string) : string :=
  match s with
  | String _ (String _ (String _ rest)) => rest
  | _ => EmptyString
  end.

(** The text after the first [://], when there is one. *)
Fixpoint after_scheme (s : string) : option string :=
  match s with
  | EmptyString => None
  | String _ s' => if Py.startswith "://" s then Some (drop3 s) else after_scheme s'
  end.

Fixpoint take_until (stop : ascii -> bool) (s : string) : string :=
  match s with
  | EmptyString => EmptyString
  | String c s' => if stop c then EmptyString else String c (take_until stop s')
  end.

(** The text after the last [@], when there is one. *)
Fixpoint after_at (s : string) : option string :=
  match s with
  | EmptyString => None
  | String c s' =>
      match after_at s' with
      | Some t => Some t
      | None => if Ascii.eqb c "@" then Some s' else None
      end
  end.

Definition ends_authority (c : ascii) : bool :=
  Ascii.eqb c "/" || Ascii.eqb c "?" || Ascii.eqb c "#".

(** [scheme://userinfo@host:port/path?query#fragment] gives [host]. *)
Definition host (url : string) : string :=
  let authority := take_until ends_authority (default url (after_scheme url)) in
  take_until (Ascii.eqb ":") (default authority (after_at authority)).

End UrlSpec.

(** ** Drivers for concrete runs *)

Module Scenario.

Import Service.

(** The first bytes of a PNG file. *)
Definition png_bytes : list Byte.byte :=
  [Byte.x89; Byte.x50; Byte.x4e; Byte.x47; Byte.x0d; Byte.x0a; Byte.x1a; Byte.x0a].

(** One second passes per driver call. *)
Definition ticking (l : list Call) : Q := inject_Z (Z.of_nat (List.length l)).

(** Every call returns; three elements match whatever is counted. *)
Definition cooperative : Driver := {|
  answer_handle := fun l => Returned (List.length l);
  answer_page := fun l => Returned (List.length l);
  answer_unit := fun _ => Returned tt;
  answer_value := fun _ => Returned (Py.VInt 3);
  answer_bytes := fun _ => Returned png_bytes;
  clock := ticking
|}.

Definition timeout_error (what : string) : PyExn :=
  {| exn_class := "TimeoutError"; exn_text := what |}.

(** The selector never appears: waiting for it times out and nothing
    matches it. *)
Definition selector_missing : Driver := {|
  answer_handle := fun l => Returned (List.length l);
  answer_page := fun l => Returned (List.length l);
  answer_unit := fun l =>
    match l with
    | PageWaitForSelector _ _ _ :: _ => Raised (timeout_error "Timeout 30000ms exceeded.")
    | _ => Returned tt
    end;
  answer_value := fun _ => Returned (Py.VInt 0);
  answer_bytes := fun _ => Returned png_bytes;
  clock := ticking
|}.

(** The host cannot be reached. *)
Definition unreachable_host : Driver := {|
  answer_handle := fun l => Returned (List.length l);
  answer_page := fun l => Returned (List.length l);
  answer_unit := fun l =>
    match l with
    | PageGoto _ _ _ _ :: _ =>
        Raised {| exn_class := "Error"; exn_text := "net::ERR_NAME_NOT_RESOLVED" |}
    | _ => Returned tt
    end;
  answer_value := fun _ => Returned (Py.VInt 0);
  answer_bytes := fun _ => Returned png_bytes;
  clock := ticking
|}.

(** The host cannot be reached, and the page cannot be closed either. *)
Definition broken_page : Driver := {|
  answer_handle := fun l => Returned (List.length l);
  answer_page := fun l => Returned (List.length l);
  answer_unit := fun l =>
    match l with
    | PageGoto _ _ _ _ :: _ =>
        Raised {| exn_class := "Error"; exn_text := "net::ERR_NAME_NOT_RESOLVED" |}
    | PageClose _ :: _ =>
        Raised {| exn_class := "Error"; exn_text := "Connection closed" |}
    | _ => Returned tt
    end;
  answer_value := fun _ => Returned (Py.VInt 0);
  answer_bytes := fun _ => Returned png_bytes;
  clock := ticking
|}.

(** The service before [initialize] ever ran. *)
Definition fresh : World :=
  {| self := new_service; open_pages := []; log := [] |}.

(** The driver process runs, the browser was never launched. *)
Definition no_browser : World :=
  {| self := {| browser := None; playwright := Some 1%nat |};
     open_pages := []; log := [AsyncPlaywrightStart] |}.

Definition accept_any (s : string) : option string := Some s.

End Scenario.

(** ** Reading base64 back

    The service only encodes.  The decoder below is the reading a client
    makes of [image_base64]; it serves to state that nothing is lost. *)

Module Base64.

(** The index of a character of the alphabet. *)
Definition index (c : ascii) : N :=
  let n := N_of_ascii c in
  if (65 <=? n)%N && (n <=? 90)%N then (n - 65)%N
  else if (97 <=? n)%N && (n <=? 122)%N then (n - 71)%N
  else if (48 <=? n)%N && (n <=? 57)%N then (n + 4)%N
  else if (n =? 43)%N then 62%N
  else 63%N.

Definition pad : ascii := ascii_of_N 61.

Definition byte_of (n : N) : Byte.byte := default Byte.x00 (Byte.of_N n).

(** Four characters give three bytes; a group ending in one or two [=]
    gives two bytes or one and ends the text. *)
Fixpoint b64decode (s : string) : list Byte.byte :=
  match s with
  | String a (String b (String c (String d rest))) =>
      let i := index a in
      let j := index b in
      let k := index c in
      let l := index d in
      let first := byte_of (i * 4 + j / 16) in
      let second := byte_of ((j mod 16) * 16 + k / 4) in
      let third := byte_of ((k mod 4) * 64 + l) in
      if Ascii.eqb d pad then
        if Ascii.eqb c pad then [first] else [first; second]
      else first :: second :: third :: b64decode rest
  | _ => []
  end%N.

End Base64.

(** ** The log of driver calls *)

Module Log.

Import Service.

Fixpoint count (p : Call -> bool) (l : list Call) : nat :=
  match l with
  | [] => 0%nat
  | c :: rest => if p c then S (count p rest) else count p rest
  end.

Definition is_start (c : Call) : bool :=
  match c with AsyncPlaywrightStart => true | _ => false end.

Definition is_launch (c : Call) : bool :=
  match c with ChromiumLaunch _ _ => true | _ => false end.

Definition is_new_page (c : Call) : bool :=
  match c with BrowserNewPage _ _ _ => true | _ => false end.

Definition is_wait_for_selector (c : Call) : bool :=
  match c with PageWaitForSelector _ _ _ => true | _ => false end.

Definition is_wait_for_timeout (c : Call) : bool :=
  match c with PageWaitForTimeout _ _ => true | _ => false end.

Definition is_evaluate (c : Call) : bool :=
  match c with PageEvaluate _ _ => true | _ => false end.

Definition is_screenshot (c : Call) : bool :=
  match c with PageScreenshot _ _ _ => true | _ => false end.

(** What the request bounds and the literals of [capture_screenshot] and
    [initialize] allow a call to carry. *)
Definition within_limits (c : Call) : Prop :=
  match c with
  | ChromiumLaunch _ headless => headless = true
  | BrowserNewPage _ vw vh => 800 <= vw <= 3840 /\ 600 <= vh <= 2160
  | PageGoto _ _ wait_until timeout =>
      wait_until = "domcontentloaded" /\ timeout = 60000
  | PageWaitForSelector _ selector timeout =>
      selector <> EmptyString /\ timeout = 30000
  | PageWaitForTimeout _ ms => 0 < ms <= 60000
  | PageScreenshot _ type _ => type = "png"
  | _ => True
  end.

(** The clock never runs backwards as calls are made. *)
Definition monotone_clock (drv : Driver) : Prop :=
  forall c l, Qle (clock drv l) (clock drv (c :: l)).

(** [grows P l l']: the log [l'] is the log [l] with further calls on top,
    each of them satisfying [P]. *)
Inductive grows (P : Call -> Prop) (l : list Call) : list Call -> Prop :=
| grows_none : grows P l l
| grows_call (c : Call) (l' : list Call) :
    P c -> grows P l l' -> grows P l (c :: l').

(** [raises drv l e]: the driver answers the call at the head of the log
    [l] by raising [e]. *)
Definition raises (drv : Driver) (l : list Call) (e : PyExn) : Prop :=
  match l with
  | [] => False
  | AsyncPlaywrightStart :: _ | ChromiumLaunch _ _ :: _ =>
      answer_handle drv l = Raised e
  | BrowserNewPage _ _ _ :: _ => answer_page drv l = Raised e
  | PageEvaluate _ _ :: _ => answer_value drv l = Raised e
  | PageScreenshot _ _ _ :: _ => answer_bytes drv l = Raised e
  | _ => answer_unit drv l = Raised e
  end.

(** The calls [capture_screenshot] may make for given arguments, on a
    session that had the fields [session] when it was entered. *)
Definition capture_call (session : ScreenshotService)
    (url : string) (width height wait_time : Z)
    (wait_for_selector : option string) (full_page : bool) (c : Call) : Prop :=
  match c with
  | AsyncPlaywrightStart => playwright session = None
  | ChromiumLaunch _ headless => playwright session = None /\ headless = true
  | BrowserNewPage _ vw vh => vw = width /\ vh = height
  | PageGoto _ target wait_until timeout =>
      target = url /\ wait_until = "domcontentloaded" /\ timeout = 60000
  | PageWaitForSelector _ selector timeout =>
      wait_for_selector = Some selector /\ selector <> EmptyString
      /\ timeout = 30000
  | PageWaitForTimeout _ ms => ms = wait_time /\ 0 < wait_time
  | PageEvaluate _ expression =>
      exists selector,
        wait_for_selector = Some selector /\ selector <> EmptyString
        /\ expression = count_expression selector
  | PageScreenshot _ type with_full_page =>
      type = "png" /\ with_full_page = full_page
  | PageClose _ => True
  | BrowserClose _ => False
  | PlaywrightStop _ => False
  end.

End Log.

(** ** app/main.py: the other endpoints and the life of the service *)

Module App.

Import Service.

(** [root] *)
Definition root : Py.value :=
  Py.VDict
    [("service", Py.VStr "CannaView Screenshot Service");
     ("version", Py.VStr "1.0.0");
     ("status", Py.VStr "running");
     ("docs", Py.VStr "/docs")].



Section Application.

Variable settings : Config.Settings.
Variable drv : Driver.


(** [lifespan]: what runs before the [yield], the serving of requests in
    its place, what runs after it.  An exception of the serving is raised at
    the [yield], which no handler covers. *)
Definition lifespan {A} (serving : M World A) : M World A :=
  (initialize drv ;;
   served <- serving ;;
   cleanup drv ;;
   ret served)%py.

(** A request to [POST /screenshot]: its [X-API-Key] header and its body. *)
Record Request := {
  x_api_key : option string;
  body : Models.Body
}.

(** Requests served one after the other.  The framework answers each one;
    an exception that leaves an endpoint ends that request only. *)
Fixpoint serve (http_url : string -> option string) (requests : list Request)
  : M World (list Main.Outcome) :=
  match requests with
  | [] => ret []
  | r :: rest =>
      fun w =>
        match Main.post_screenshot settings drv http_url (x_api_key r) (body r) w with
        | (outcome, w') =>
            match serve http_url rest w' with
            | (Returned outcomes, w'') => (Returned (outcome :: outcomes), w'')
            | (Raised e, w'') => (Raised e, w'')
            end
        end
  end.

End Application.

End App.

(** ** Reading a result *)

Module Result.

(** [result["metadata"][key]], when both items are there. *)
Definition metadata_item (key : string) (result : Py.value) : option Py.value :=
  match Py.get "metadata" result with
  | Some meta => Py.get key meta
  | None => None
  end.

End Result.

(** ** More drivers, worlds and requests for concrete runs *)

Module Demo.

Import Service.

(** A request with the default key and an immediate capture of [url]. *)
Definition request_for (url : string) : App.Request :=
  {| App.x_api_key := Some "change-me-in-production";
     App.body :=
       {| Models.body_url := Some url;
          Models.body_width := None; Models.body_height := None;
          Models.body_wait_time := Some 0;
          Models.body_wait_for_selector := None;
          Models.body_full_page := None |} |}.

Definition two_requests : list App.Request :=
  [request_for "https://www.easydis.io/a"; request_for "https://www.easydis.io/b"].

(** The driver starts, the browser cannot be launched. *)
Definition launch_fails : Driver := {|
  answer_handle := fun l =>
    match l with
    | ChromiumLaunch _ _ :: _ =>
        Raised {| exn_class := "Error"; exn_text := "Executable doesn't exist" |}
    | _ => Returned (List.length l)
    end;
  answer_page := fun l => Returned (List.length l);
  answer_unit := fun _ => Returned tt;
  answer_value := fun _ => Returned (Py.VInt 0);
  answer_bytes := fun _ => Returned Scenario.png_bytes;
  clock := Scenario.ticking
|}.

(** The browser cannot be closed. *)
Definition close_fails : Driver := {|
  answer_handle := fun l => Returned (List.length l);
  answer_page := fun l => Returned (List.length l);
  answer_unit := fun l =>
    match l with
    | BrowserClose _ :: _ =>
        Raised {| exn_class := "Error"; exn_text := "Browser has been closed" |}
    | _ => Returned tt
    end;
  answer_value := fun _ => Returned (Py.VInt 0);
  answer_bytes := fun _ => Returned Scenario.png_bytes;
  clock := Scenario.ticking
|}.

(** The browser refuses to open a page, with a text of its own choosing;
    the clock stands still. *)
Definition page_refused : Driver := {|
  answer_handle := fun l => Returned (List.length l);
  answer_page := fun _ =>
    Raised {| exn_class := "Error"; exn_text := "Browser not initialized" |};
  answer_unit := fun _ => Returned tt;
  answer_value := fun _ => Returned (Py.VInt 0);
  answer_bytes := fun _ => Returned Scenario.png_bytes;
  clock := fun _ => inject_Z 0
|}.

(** The service after a start-up that went well. *)
Definition running : World :=
  {| self := {| browser := Some 2%nat; playwright := Some 1%nat |};
     open_pages := [];
     log := [ChromiumLaunch 1%nat true; AsyncPlaywrightStart] |}.

End Demo.

(** * Properties *)

(** ** The built-ins on known values *)

Example split_default_domains :
  Py.split Config.comma "easydis.io,www.easydis.io" = ["easydis.io"; "www.easydis.io"].
Proof. reflexivity. Qed.

Example split_keeps_empty_fields :
  Py.split Config.comma "a,,b," = ["a"; EmptyString; "b"; EmptyString].
Proof. reflexivity. Qed.

Example repr_default_domains :
  Py.repr_list ["easydis.io"; "www.easydis.io"] = "['easydis.io', 'www.easydis.io']".
Proof. reflexivity. Qed.

Example b64encode_png_signature :
  Py.b64encode Scenario.png_bytes = "iVBORw0KGgo=".
Proof. reflexivity. Qed.

Example contains_inside_path :
  Py.contains "easydis.io" "https://evil.example/easydis.io" = true.
Proof. reflexivity. Qed.

Example host_of_full_url :
  UrlSpec.host "https://user:pw@www.easydis.io:8443/screen/1?x=1#top" = "www.easydis.io".
Proof. reflexivity. Qed.

(** ** Substring search *)

Lemma append_nil (s : string) : EmptyString +:+ s = s.
Proof. reflexivity. Qed.

Lemma append_cons (a : ascii) (s t : string) :
  String a s +:+ t = String a (s +:+ t).
Proof. reflexivity. Qed.

Lemma append_empty_r (s : string) : s +:+ EmptyString = s.
Proof.
  induction s as [|a s IH]; [reflexivity|].
  rewrite append_cons, IH. reflexivity.
Qed.

Lemma startswith_app (p t : string) : Py.startswith p (p +:+ t) = true.
Proof.
  induction p as [|a p IH]; [reflexivity|].
  rewrite append_cons. simpl. rewrite Ascii.eqb_refl. exact IH.
Qed.

Lemma startswith_inv (p s : string) :
  Py.startswith p s = true -> exists t, s = p +:+ t.
Proof.
  revert s. induction p as [|a p IH]; intros s H.
  - exists s. reflexivity.
  - destruct s as [|b s]; simpl in H; [discriminate|].
    destruct (Ascii.eqb a b) eqn:E; [|discriminate].
    apply Ascii.eqb_eq in E. subst b.
    destruct (IH s H) as [t ->]. exists t. rewrite append_cons. reflexivity.
Qed.

Lemma startswith_empty (p : string) :
  Py.startswith p EmptyString = true -> p = EmptyString.
Proof. destruct p; simpl; [reflexivity|discriminate]. Qed.

Lemma app_empty_inv (a b : string) :
  a +:+ b = EmptyString -> a = EmptyString /\ b = EmptyString.
Proof.
  destruct a; [rewrite append_nil; auto | rewrite append_cons; discriminate].
Qed.

Lemma contains_occurs (needle hay : string) :
  Py.contains needle hay = true <-> Py.occurs_in needle hay.
Proof.
  unfold Py.occurs_in. induction hay as [|c hay IH]; simpl.
  - split.
    + intros H. apply startswith_empty in H. subst needle.
      exists EmptyString, EmptyString. reflexivity.
    + intros (pre & post & H). symmetry in H.
      apply app_empty_inv in H as [_ H].
      apply app_empty_inv in H as [-> _]. reflexivity.
  - rewrite orb_true_iff, IH. split.
    + intros [H | (pre & post & ->)].
      * apply (startswith_inv needle (String c hay)) in H as [t H].
        exists EmptyString, t. exact H.
      * exists (String c pre), post. reflexivity.
    + intros (pre & post & H). destruct pre as [|a pre].
      * left. rewrite append_nil in H. rewrite H. apply startswith_app.
      * right. rewrite append_cons in H. injection H as _ H.
        exists pre, post. exact H.
Qed.

Lemma contains_empty (hay : string) : Py.contains EmptyString hay = true.
Proof. destruct hay; reflexivity. Qed.

Lemma any_domain_in_true (domains : list string) (url : string) :
  Config.any_domain_in domains url = true <->
  exists domain, In domain domains /\ Py.contains domain url = true.
Proof.
  induction domains as [|d rest IH]; simpl.
  - split; [discriminate | intros (? & [] & _)].
  - destruct (Py.contains d url) eqn:E.
    + split; [|reflexivity]. intros _. exists d. auto.
    + rewrite IH. split.
      * intros (x & Hin & Hx). exists x. auto.
      * intros (x & [<- | Hin] & Hx); [congruence|]. exists x. auto.
Qed.

Lemma any_domain_in_false (domains : list string) (url : string) :
  Config.any_domain_in domains url = false <->
  forall domain, In domain domains -> Py.contains domain url = false.
Proof.
  split.
  - intros H d Hin. destruct (Py.contains d url) eqn:E; [|reflexivity].
    assert (Config.any_domain_in domains url = true) as H'
      by (apply any_domain_in_true; exists d; auto).
    congruence.
  - intros H. destruct (Config.any_domain_in domains url) eqn:E; [|reflexivity].
    apply any_domain_in_true in E as (d & Hin & Hd).
    rewrite (H d Hin) in Hd. discriminate.
Qed.

(** ** The domain allow-list *)

(** C3: for every URL text and every list of allowed domains,
    [is_domain_allowed] answers true exactly when some allowed domain occurs
    as a substring of the URL text.  The whole text is searched, not the
    host. *)
Theorem is_domain_allowed_iff_substring (settings : Config.Settings) (url : string) :
  Config.is_domain_allowed settings url = true <->
  exists domain,
    In domain (Config.ALLOWED_DOMAINS settings) /\ Py.occurs_in domain url.
Proof.
  unfold Config.is_domain_allowed. rewrite any_domain_in_true.
  split; intros (d & Hin & Hd); exists d; split; auto; apply contains_occurs; exact Hd.
Qed.

(** C10: an allow-list holding the empty string lets every URL through.
    Setting [ALLOWED_DOMAINS] to the empty text gives such a list, since
    splitting the empty text on commas yields one empty field. *)
Theorem empty_domain_allows_all (environ : gmap string string) (url : string) :
  Py.split Config.comma EmptyString = [EmptyString] /\
  Config.ALLOWED_DOMAINS (Config.load (<["ALLOWED_DOMAINS" := EmptyString]> environ))
    = [EmptyString] /\
  Config.is_domain_allowed
    (Config.load (<["ALLOWED_DOMAINS" := EmptyString]> environ)) url = true /\
  forall settings : Config.Settings,
    In EmptyString (Config.ALLOWED_DOMAINS settings) ->
    Config.is_domain_allowed settings url = true.
Proof.
  assert (forall settings : Config.Settings,
    In EmptyString (Config.ALLOWED_DOMAINS settings) ->
    Config.is_domain_allowed settings url = true) as Hall.
  { intros settings Hin. apply any_domain_in_true.
    exists EmptyString. split; [exact Hin | apply contains_empty]. }
  assert (Config.ALLOWED_DOMAINS
            (Config.load (<["ALLOWED_DOMAINS" := EmptyString]> environ))
          = [EmptyString]) as Hload.
  { unfold Config.load, Config.getenv. simpl.
    rewrite lookup_insert_eq. reflexivity. }
  repeat split; auto.
  apply Hall. rewrite Hload. left. reflexivity.
Qed.

Lemma empty_domain_allows_all_witness :
  Config.is_domain_allowed
    {| Config.API_KEY := "k"; Config.ALLOWED_DOMAINS := ["easydis.io"; EmptyString];
       Config.BROWSER_TYPE := "chromium" |}
    "https://evil.example/" = true.
Proof.
  apply (empty_domain_allows_all ∅ "https://evil.example/").
  simpl. right. left. reflexivity.
Defined.

(** ** The authentication guard *)

Lemma eqb_empty_false (key : string) :
  key <> EmptyString -> String.eqb key EmptyString = false.
Proof. intros H. apply String.eqb_neq. exact H. Qed.

(** C2, as the code has it: the guard raises 401 when the header is absent
    or empty, raises 403 when the header holds a non-empty text that differs
    from the configured secret, and otherwise returns the text it was given;
    a request the guard refuses leaves the service as it was. *)
Theorem verify_api_key_cases (settings : Config.Settings) (api_key : option string) :
  (api_key = None \/ api_key = Some EmptyString ->
   Auth.verify_api_key settings api_key = inl Auth.missing_key) /\
  (forall key, api_key = Some key -> key <> EmptyString ->
     key <> Config.API_KEY settings ->
     Auth.verify_api_key settings api_key = inl Auth.invalid_key) /\
  (forall key, api_key = Some key -> key <> EmptyString ->
     key = Config.API_KEY settings ->
     Auth.verify_api_key settings api_key = inr key) /\
  Auth.status_code Auth.missing_key = 401 /\
  Auth.status_code Auth.invalid_key = 403 /\
  (forall drv http_url header body w e,
     Auth.verify_api_key settings (Auth.api_key_header header) = inl e ->
     Main.post_screenshot settings drv http_url header body w = (Main.Failed e, w)).
Proof.
  repeat split.
  - intros [-> | ->]; reflexivity.
  - intros key -> Hne Hkey. unfold Auth.verify_api_key. simpl.
    rewrite (eqb_empty_false key Hne). simpl.
    apply String.eqb_neq in Hkey. rewrite Hkey. reflexivity.
  - intros key -> Hne Hkey. unfold Auth.verify_api_key. simpl.
    rewrite (eqb_empty_false key Hne). simpl.
    apply String.eqb_eq in Hkey. rewrite Hkey. reflexivity.
  - intros drv http_url header body w e H. unfold Main.post_screenshot.
    rewrite H. reflexivity.
Qed.

Lemma verify_api_key_cases_witness :
  Auth.verify_api_key (Config.load ∅) (Some "change-me-in-production")
    = inr "change-me-in-production" /\
  Auth.verify_api_key (Config.load ∅) (Some "guess") = inl Auth.invalid_key /\
  Auth.verify_api_key (Config.load ∅) None = inl Auth.missing_key.
Proof.
  split; [|split].
  - destruct (verify_api_key_cases (Config.load ∅) (Some "change-me-in-production"))
      as (_ & _ & Hpass & _).
    apply Hpass; [reflexivity | discriminate | reflexivity].
  - destruct (verify_api_key_cases (Config.load ∅) (Some "guess"))
      as (_ & Hbad & _).
    apply (Hbad "guess"); [reflexivity | discriminate | discriminate].
  - destruct (verify_api_key_cases (Config.load ∅) None) as (Hmissing & _).
    apply Hmissing. left. reflexivity.
Defined.

(** C2 as stated fails for a header that is present and empty: it differs
    from the secret, and the answer is 401, not 403. *)
Lemma empty_header_is_unauthenticated :
  EmptyString <> Config.API_KEY (Config.load ∅) /\
  Auth.verify_api_key (Config.load ∅) (Some EmptyString) = inl Auth.missing_key /\
  Auth.status_code Auth.missing_key = 401 /\
  fst (Main.post_screenshot (Config.load ∅) Scenario.cooperative Scenario.accept_any
         (Some EmptyString)
         {| Models.body_url := Some "https://www.easydis.io/";
            Models.body_width := None; Models.body_height := None;
            Models.body_wait_time := None; Models.body_wait_for_selector := None;
            Models.body_full_page := None |}
         Scenario.fresh)
    = Main.Failed Auth.missing_key.
Proof. repeat split. discriminate. Qed.

(** ** Validation of the request body *)

Lemma int_field_rejects (dflt lo hi : Z) (raw : option Z) :
  Models.out_of_range lo hi raw -> Models.int_field dflt lo hi raw = None.
Proof.
  intros (n & -> & Hn). unfold Models.int_field.
  destruct (lo <=? n) eqn:Hlo; [|reflexivity].
  destruct (n <=? hi) eqn:Hhi; [|reflexivity].
  apply Z.leb_le in Hlo. apply Z.leb_le in Hhi. lia.
Qed.

Lemma int_field_accepts (dflt lo hi : Z) (raw : option Z) (n : Z) :
  lo <= dflt <= hi ->
  Models.int_field dflt lo hi raw = Some n -> lo <= n <= hi.
Proof.
  intros Hd. unfold Models.int_field. destruct raw as [m|].
  - destruct (lo <=? m) eqn:Hlo; [|discriminate].
    destruct (m <=? hi) eqn:Hhi; [|discriminate].
    apply Z.leb_le in Hlo. apply Z.leb_le in Hhi.
    simpl. intros [= <-]. lia.
  - intros [= <-]. exact Hd.
Qed.

Lemma validate_bounds (http_url : string -> option string) (b : Models.Body)
    (request : Models.ScreenshotRequest) :
  Models.validate http_url b = inr request ->
  800 <= Models.width request <= 3840 /\
  600 <= Models.height request <= 2160 /\
  0 <= Models.wait_time request <= 60000.
Proof.
  unfold Models.validate.
  destruct (Models.check_url http_url (Models.body_url b)) as [u|];
  destruct (Models.check_width (Models.body_width b)) as [w|] eqn:Hw;
  destruct (Models.check_height (Models.body_height b)) as [h|] eqn:Hh;
  destruct (Models.check_wait_time (Models.body_wait_time b)) as [t|] eqn:Ht;
  try discriminate.
  intros [= <-]. simpl.
  apply int_field_accepts in Hw; [|lia].
  apply int_field_accepts in Hh; [|lia].
  apply int_field_accepts in Ht; [|lia].
  auto.
Qed.

Lemma validate_rejects (http_url : string -> option string) (b : Models.Body) :
  Models.check_width (Models.body_width b) = None \/
  Models.check_height (Models.body_height b) = None \/
  Models.check_wait_time (Models.body_wait_time b) = None ->
  exists fields, Models.validate http_url b = inl fields /\ fields <> [].
Proof.
  unfold Models.validate.
  destruct (Models.check_url http_url (Models.body_url b)) as [u|];
  destruct (Models.check_width (Models.body_width b)) as [w|];
  destruct (Models.check_height (Models.body_height b)) as [h|];
  destruct (Models.check_wait_time (Models.body_wait_time b)) as [t|];
  intros [H | [H | H]]; try discriminate H;
  (eexists; split; [reflexivity | simpl; discriminate]).
Qed.

(** C4: a request whose [width] lies outside 800..3840, whose [height] lies
    outside 600..2160 or whose [wait_time] lies outside 0..60000 is turned
    down before the endpoint runs: validation rejects the body, no response
    is produced by the endpoint, and the service, with its log of driver
    calls, is left as it was.  With a key that passes the guard the request
    ends as a validation error. *)
Theorem out_of_bounds_rejected
    (settings : Config.Settings) (drv : Service.Driver)
    (http_url : string -> option string) (header : option string)
    (body : Models.Body) (w : Service.World) :
  Models.out_of_range 800 3840 (Models.body_width body) \/
  Models.out_of_range 600 2160 (Models.body_height body) \/
  Models.out_of_range 0 60000 (Models.body_wait_time body) ->
  exists fields,
    Models.validate http_url body = inl fields /\ fields <> [] /\
    snd (Main.post_screenshot settings drv http_url header body w) = w /\
    (forall r, fst (Main.post_screenshot settings drv http_url header body w)
               <> Main.Responded r) /\
    (forall key,
       Auth.verify_api_key settings (Auth.api_key_header header) = inr key ->
       Main.post_screenshot settings drv http_url header body w
       = (Main.Unprocessable fields, w)).
Proof.
  intros H.
  destruct (validate_rejects http_url body) as (fields & Hv & Hne).
  { destruct H as [H | [H | H]]; [left | right; left | right; right];
      apply int_field_rejects; exact H. }
  exists fields. unfold Main.post_screenshot. rewrite Hv.
  destruct (Auth.verify_api_key settings (Auth.api_key_header header)) as [e|key];
    simpl; repeat split; auto; discriminate.
Qed.

Lemma out_of_bounds_rejected_witness :
  exists fields,
    Main.post_screenshot (Config.load ∅) Scenario.cooperative Scenario.accept_any
      (Some "change-me-in-production")
      {| Models.body_url := Some "https://www.easydis.io/";
         Models.body_width := Some 799; Models.body_height := None;
         Models.body_wait_time := None; Models.body_wait_for_selector := None;
         Models.body_full_page := None |}
      Scenario.fresh
    = (Main.Unprocessable fields, Scenario.fresh).
Proof.
  destruct (out_of_bounds_rejected (Config.load ∅) Scenario.cooperative
              Scenario.accept_any (Some "change-me-in-production")
              {| Models.body_url := Some "https://www.easydis.io/";
                 Models.body_width := Some 799; Models.body_height := None;
                 Models.body_wait_time := None; Models.body_wait_for_selector := None;
                 Models.body_full_page := None |}
              Scenario.fresh) as (fields & _ & _ & _ & _ & H).
  - left. exists 799. split; [reflexivity | lia].
  - exists fields. apply (H "change-me-in-production"). reflexivity.
Defined.

(** ** The allow-list at the endpoint *)

Lemma take_screenshot_forbidden
    (settings : Config.Settings) (drv : Service.Driver)
    (request : Models.ScreenshotRequest) (api_key : string) (w : Service.World) :
  Config.is_domain_allowed settings (Models.url request) = false ->
  Main.take_screenshot settings drv request api_key w
  = (Main.Failed (Main.domain_not_allowed settings), w).
Proof. intros H. unfold Main.take_screenshot. rewrite H. reflexivity. Qed.

(** What the check of the endpoint does turn down: a request with a valid
    credential whose URL text, the whole of it, contains no allowed domain
    as a substring is answered 403; the capture routine is not invoked and
    the service, with its log of driver calls, is left as it was. *)
Lemma disallowed_url_forbidden
    (settings : Config.Settings) (drv : Service.Driver)
    (http_url : string -> option string) (header : option string)
    (body : Models.Body) (key : string) (request : Models.ScreenshotRequest)
    (w : Service.World) :
  Auth.verify_api_key settings (Auth.api_key_header header) = inr key ->
  Models.validate http_url body = inr request ->
  (forall domain, In domain (Config.ALLOWED_DOMAINS settings) ->
     ~ Py.occurs_in domain (Models.url request)) ->
  Main.post_screenshot settings drv http_url header body w
  = (Main.Failed (Main.domain_not_allowed settings), w) /\
  Auth.status_code (Main.domain_not_allowed settings) = 403.
Proof.
  intros Hkey Hbody Hnone. split.
  - unfold Main.post_screenshot. rewrite Hkey, Hbody.
    apply take_screenshot_forbidden. apply any_domain_in_false.
    intros domain Hin. destruct (Py.contains domain (Models.url request)) eqn:E;
      [|reflexivity].
    apply contains_occurs in E. destruct (Hnone domain Hin E).
  - reflexivity.
Qed.

Lemma not_occurs (needle hay : string) :
  Py.contains needle hay = false -> ~ Py.occurs_in needle hay.
Proof. intros H Hocc. apply contains_occurs in Hocc. congruence. Qed.

(** The request for [https://evil.example/] under the default settings:
    403, with the default allow-list printed in the detail. *)
Example evil_example_forbidden :
  Main.post_screenshot (Config.load ∅) Scenario.cooperative Scenario.accept_any
    (Some "change-me-in-production")
    {| Models.body_url := Some "https://evil.example/";
       Models.body_width := None; Models.body_height := None;
       Models.body_wait_time := None; Models.body_wait_for_selector := None;
       Models.body_full_page := None |}
    Scenario.fresh
  = (Main.Failed
       {| Auth.status_code := 403;
          Auth.detail :=
            Py.VStr "Domain not allowed. Allowed domains: ['easydis.io', 'www.easydis.io']" |},
     Scenario.fresh).
Proof.
  destruct (disallowed_url_forbidden (Config.load ∅) Scenario.cooperative
              Scenario.accept_any (Some "change-me-in-production")
              {| Models.body_url := Some "https://evil.example/";
                 Models.body_width := None; Models.body_height := None;
                 Models.body_wait_time := None;
                 Models.body_wait_for_selector := None;
                 Models.body_full_page := None |}
              "change-me-in-production"
              {| Models.url := "https://evil.example/"; Models.width := 1920;
                 Models.height := 1080; Models.wait_time := 10000;
                 Models.wait_for_selector := None; Models.full_page := false |}
              Scenario.fresh) as [H _].
  - reflexivity.
  - reflexivity.
  - intros domain [<- | [<- | []]]; apply not_occurs; reflexivity.
  - exact H.
Qed.

(** C1 asks for a 403 whenever the host of the URL matches no allowed
    domain, and the docstring of [is_domain_allowed] says it checks the
    domain of the URL.  The code departs from both at this request: the
    check searches the whole URL text, the host of
    [https://evil.example/easydis.io] contains no allowed domain, the
    credential is valid, and the request is not answered 403: the capture
    routine is invoked and the page of the foreign host is captured. *)
Theorem host_outside_allow_list_is_captured :
  (forall domain, In domain (Config.ALLOWED_DOMAINS (Config.load ∅)) ->
     ~ Py.occurs_in domain (UrlSpec.host "https://evil.example/easydis.io")) /\
  exists r w',
    Main.post_screenshot (Config.load ∅) Scenario.cooperative Scenario.accept_any
      (Some "change-me-in-production")
      {| Models.body_url := Some "https://evil.example/easydis.io";
         Models.body_width := None; Models.body_height := None;
         Models.body_wait_time := None; Models.body_wait_for_selector := None;
         Models.body_full_page := None |}
      Scenario.fresh
    = (Main.Responded r, w') /\
    Models.success r = true /\
    In (Service.PageGoto 3%nat "https://evil.example/easydis.io" "domcontentloaded" 60000)
       (Service.log w').
Proof.
  split.
  - intros domain [<- | [<- | []]]; apply not_occurs; reflexivity.
  - eexists. eexists. split; [vm_compute; reflexivity|].
    split; [reflexivity|]. simpl. tauto.
Qed.

(** ** The browser session *)

Import Service.

Ltac unfold_run :=
  repeat (progress
    (unfold capture_screenshot, try_finally, try_except, capture_try,
       capture_except, capture_finally, initialize, new_page, page_close,
       if_selector, lift, bind, ret, raise, await, get_self, put_self, set_page,
       get_page, time_time, enter in *;
     simpl in *)).

(** C9: [initialize] is idempotent.  Run twice in a row it ends as one run
    does, with the same world (session, open pages and log of driver
    calls); after a run that returned, a further run changes nothing; and on
    a session whose driver handle is set it makes no driver call at all. *)
Theorem initialize_idempotent (drv : Driver) (w : World) :
  (initialize drv ;; initialize drv)%py w = initialize drv w /\
  (forall w', initialize drv w = (Returned tt, w') ->
     initialize drv w' = (Returned tt, w')) /\
  (forall pw, playwright (self w) = Some pw ->
     initialize drv w = (Returned tt, w)).
Proof.
  destruct w as [[b pw] pages l]. repeat split.
  - unfold_run. destruct pw as [pw|]; simpl; [reflexivity|].
    destruct (answer_handle drv (AsyncPlaywrightStart :: l)) as [h|e]; simpl;
      [|reflexivity].
    destruct (answer_handle drv (ChromiumLaunch h true :: AsyncPlaywrightStart :: l));
      reflexivity.
  - intros w'. unfold_run. destruct pw as [pw|]; simpl.
    + intros [= <-]. reflexivity.
    + destruct (answer_handle drv (AsyncPlaywrightStart :: l)) as [h|e]; simpl;
        [|discriminate].
      destruct (answer_handle drv (ChromiumLaunch h true :: AsyncPlaywrightStart :: l));
        simpl; [|discriminate].
      intros [= <-]. reflexivity.
  - intros pw' H. simpl in H. subst pw. reflexivity.
Qed.

Lemma initialize_idempotent_witness :
  initialize Scenario.cooperative
    (snd (initialize Scenario.cooperative Scenario.fresh))
  = (Returned tt, snd (initialize Scenario.cooperative Scenario.fresh)).
Proof.
  destruct (initialize_idempotent Scenario.cooperative Scenario.fresh)
    as (_ & Hagain & _).
  apply Hagain. reflexivity.
Defined.

(** ** Capture on a session without a browser *)

Ltac split_run :=
  repeat first
    [ rewrite Nat.eqb_refl
    | progress simpl
    | progress unfold_run
    | match goal with
      | |- context [match answer_handle ?d ?l with _ => _ end] =>
          destruct (answer_handle d l) eqn:?
      | |- context [match answer_page ?d ?l with _ => _ end] =>
          destruct (answer_page d l) eqn:?
      | |- context [match answer_unit ?d ?l with _ => _ end] =>
          destruct (answer_unit d l) eqn:?
      | |- context [match answer_value ?d ?l with _ => _ end] =>
          destruct (answer_value d l) eqn:?
      | |- context [match answer_bytes ?d ?l with _ => _ end] =>
          destruct (answer_bytes d l) eqn:?
      | |- context [if is_exception ?e then _ else _] =>
          destruct (is_exception e) eqn:?
      | |- context [if negb (String.eqb ?s EmptyString) then _ else _] =>
          destruct (String.eqb s EmptyString) eqn:?
      | |- context [if ?n >? 0 then _ else _] => destruct (n >? 0) eqn:?
      end ].

(** C8, as the code has it: the package has no [SessionNotReady] error and
    reports every failure of the session as a failure result with a plain
    error text.  On a session whose driver handle is set and whose browser
    handle is absent, a capture makes no driver call; its [try] block
    raises a generic [Exception] and the result carries its text.  When the
    browser cannot open a page, when the driver cannot be started or when
    the browser cannot be launched, the result carries the text of the
    driver's own exception. *)
Theorem capture_without_browser
    (drv : Driver) (url : string) (width height wait_time : Z)
    (wait_for_selector : option string) (full_page : bool) (w : World) :
  (forall pw,
     playwright (self w) = Some pw -> browser (self w) = None ->
     exists f t,
       capture_try drv url width height wait_time wait_for_selector full_page
         (clock drv (log w)) (enter w)
       = (Raised (Exception "Browser not initialized"), f) /\
       capture_screenshot drv url width height wait_time wait_for_selector full_page w
       = (Returned (failure_result "Browser not initialized" t url), w)) /\
  (forall pw b e,
     playwright (self w) = Some pw -> browser (self w) = Some b ->
     answer_page drv (BrowserNewPage b width height :: log w) = Raised e ->
     is_exception e = true ->
     exists t,
       capture_screenshot drv url width height wait_time wait_for_selector full_page w
       = (Returned (failure_result (exn_text e) t url),
          set_log (BrowserNewPage b width height :: log w) w)) /\
  (forall e,
     playwright (self w) = None ->
     answer_handle drv (AsyncPlaywrightStart :: log w) = Raised e ->
     is_exception e = true ->
     exists t,
       capture_screenshot drv url width height wait_time wait_for_selector full_page w
       = (Returned (failure_result (exn_text e) t url),
          set_log (AsyncPlaywrightStart :: log w) w)) /\
  (forall pw e,
     playwright (self w) = None ->
     answer_handle drv (AsyncPlaywrightStart :: log w) = Returned pw ->
     answer_handle drv (ChromiumLaunch pw true :: AsyncPlaywrightStart :: log w)
     = Raised e ->
     is_exception e = true ->
     exists t w',
       capture_screenshot drv url width height wait_time wait_for_selector full_page w
       = (Returned (failure_result (exn_text e) t url), w') /\
       self w' = {| browser := browser (self w); playwright := Some pw |}).
Proof.
  destruct w as [[b0 pw0] pages l]. simpl. split; [|split; [|split]].
  - intros pw -> ->. do 2 eexists. split; unfold_run; reflexivity.
  - intros pw b e -> -> H He. eexists. unfold_run. rewrite H. simpl.
    rewrite He. reflexivity.
  - intros e -> H He. eexists. unfold_run. rewrite H. simpl.
    rewrite He. reflexivity.
  - intros pw e -> Hstart H He. do 2 eexists. unfold_run.
    rewrite Hstart. simpl. rewrite H. simpl. rewrite He.
    split; reflexivity.
Qed.

Lemma capture_without_browser_witness :
  exists t,
    capture_screenshot Scenario.cooperative "https://www.easydis.io/" 1920 1080 0
      None false Scenario.no_browser
    = (Returned (failure_result "Browser not initialized" t "https://www.easydis.io/"),
       Scenario.no_browser).
Proof.
  destruct (capture_without_browser Scenario.cooperative "https://www.easydis.io/"
              1920 1080 0 None false Scenario.no_browser) as [H _].
  destruct (H 1%nat) as (f & t & _ & Hrun); [reflexivity | reflexivity |].
  exists t. exact Hrun.
Defined.

(** C8 as stated fails: on a session whose browser handle is absent the
    exception raised is a plain [Exception], and what the capture returns is
    a result with an error text and nothing else.  A session that has its
    browser, and whose browser refuses a page with the same words, gets the
    very same result: the result does not tell a session that is not ready
    from any other failure. *)
Lemma missing_browser_not_distinguished :
  browser (self Scenario.no_browser) = None /\
  browser (self Demo.running) = Some 2%nat /\
  (exists f,
     capture_try Demo.page_refused "https://www.easydis.io/" 1920 1080 0 None false
       (clock Demo.page_refused (log Scenario.no_browser)) (enter Scenario.no_browser)
     = (Raised {| exn_class := "Exception"; exn_text := "Browser not initialized" |}, f)) /\
  exists result w1 w2,
    capture_screenshot Demo.page_refused "https://www.easydis.io/" 1920 1080 0
      None false Scenario.no_browser = (Returned result, w1) /\
    capture_screenshot Demo.page_refused "https://www.easydis.io/" 1920 1080 0
      None false Demo.running = (Returned result, w2) /\
    Py.get "error" result = Some (Py.VStr "Browser not initialized").
Proof.
  split; [reflexivity|]. split; [reflexivity|]. split.
  - eexists. vm_compute. reflexivity.
  - do 3 eexists. split; [vm_compute; reflexivity|].
    split; [vm_compute; reflexivity | reflexivity].
Qed.

(** ** Release of the page *)

(** C7, as the code has it: after a capture, however it ends, the pages
    that are open are those that were open before it, unless closing the
    page of the capture itself raised; a capture that returns a result,
    success or failure, always leaves them so. *)
Theorem page_released_after_capture
    (drv : Driver) (url : string) (width height wait_time : Z)
    (wait_for_selector : option string) (full_page : bool) (w : World) :
  match capture_screenshot drv url width height wait_time wait_for_selector
          full_page w with
  | (r, w') =>
      (open_pages w' = open_pages w \/
       exists p l e,
         log w' = PageClose p :: l /\
         answer_unit drv (PageClose p :: l) = Raised e) /\
      (forall result, r = Returned result -> open_pages w' = open_pages w)
  end.
Proof.
  destruct w as [[b pw] pages l].
  destruct pw as [pw|]; destruct b as [b|];
    destruct wait_for_selector as [selector|];
    unfold_run; split_run;
    (split;
     [ first [left; reflexivity | right; eauto]
     | intros result Hr; first [reflexivity | discriminate Hr] ]).
Qed.

(** C7 as stated fails: when closing the page raises, the page the capture
    opened is still open after it. *)
Lemma page_left_open_when_close_raises :
  open_pages Scenario.fresh = [] /\
  exists e w',
    capture_screenshot Scenario.broken_page "https://www.easydis.io/" 1920 1080 0
      None false Scenario.fresh = (Raised e, w') /\
    open_pages w' = [3%nat].
Proof.
  split; [reflexivity|]. do 2 eexists. split; [vm_compute; reflexivity|].
  reflexivity.
Qed.

(** ** Failures inside the capture routine *)

Lemma finally_returns (drv : Driver) (f : Frame) :
  close_returns drv -> exists f', capture_finally drv f = (Returned tt, f').
Proof.
  intros Hclose. destruct f as [w [p|]]; unfold_run.
  - rewrite Hclose. eexists. reflexivity.
  - eexists. reflexivity.
Qed.

(** When closing the page does not raise, a capture ends as its [try]
    block does.  A result of the block is returned.  An exception of the
    block whose class derives from [Exception] (start of the driver, launch,
    opening the page, navigation, the fixed wait, counting, the screenshot)
    gives a failure result: [success] false, [error] the text of the
    exception, [metadata] made of the elapsed milliseconds and the requested
    URL, and no [image_base64] item.  Any other exception of the block
    leaves the routine. *)
Lemma capture_returns_when_close_returns
    (drv : Driver) (url : string) (width height wait_time : Z)
    (wait_for_selector : option string) (full_page : bool) (w : World) :
  close_returns drv ->
  (forall result f,
     capture_try drv url width height wait_time wait_for_selector full_page
       (clock drv (log w)) (enter w) = (Returned result, f) ->
     exists w',
       capture_screenshot drv url width height wait_time wait_for_selector full_page w
       = (Returned result, w')) /\
  (forall e f,
     capture_try drv url width height wait_time wait_for_selector full_page
       (clock drv (log w)) (enter w) = (Raised e, f) ->
     is_exception e = true ->
     exists t w',
       capture_screenshot drv url width height wait_time wait_for_selector full_page w
       = (Returned (failure_result (exn_text e) t url), w')) /\
  (forall e f,
     capture_try drv url width height wait_time wait_for_selector full_page
       (clock drv (log w)) (enter w) = (Raised e, f) ->
     is_exception e = false ->
     exists w',
       capture_screenshot drv url width height wait_time wait_for_selector full_page w
       = (Raised e, w')) /\
  (forall text t,
     Py.get "success" (failure_result text t url) = Some (Py.VBool false) /\
     Py.get "error" (failure_result text t url) = Some (Py.VStr text) /\
     Py.get "metadata" (failure_result text t url)
     = Some (Py.VDict [("capture_time_ms", Py.VInt t); ("url", Py.VStr url)]) /\
     Py.get "image_base64" (failure_result text t url) = None).
Proof.
  intros Hclose. split; [|split; [|split]].
  - intros result f H. unfold capture_screenshot, try_finally, try_except.
    rewrite H. destruct (finally_returns drv f Hclose) as [f' ->]. eauto.
  - intros e f H He. unfold capture_screenshot, try_finally, try_except.
    rewrite H, He. unfold capture_except at 1.
    unfold bind, lift, time_time, ret. simpl.
    match goal with
    | |- context [capture_finally drv ?g] =>
        destruct (finally_returns drv g Hclose) as [f' ->]
    end. eauto.
  - intros e f H He. unfold capture_screenshot, try_finally, try_except.
    rewrite H, He. destruct (finally_returns drv f Hclose) as [f' ->]. eauto.
  - intros text t. repeat split.
Qed.

(** A host that cannot be reached: the capture returns a failure result
    with the text of the navigation error. *)
Example unreachable_host_failure_result :
  exists t w',
    capture_screenshot Scenario.unreachable_host "https://no-such.easydis.io/"
      1920 1080 0 None false Scenario.fresh
    = (Returned (failure_result "net::ERR_NAME_NOT_RESOLVED" t
                   "https://no-such.easydis.io/"), w').
Proof.
  destruct (capture_returns_when_close_returns Scenario.unreachable_host
              "https://no-such.easydis.io/" 1920 1080 0 None false Scenario.fresh)
    as (_ & H & _).
  - intros l p. reflexivity.
  - eapply (H {| exn_class := "Error"; exn_text := "net::ERR_NAME_NOT_RESOLVED" |});
      reflexivity.
Qed.

(** C5 asks that a capture never raises past its boundary and that a
    failure of navigation yields a failure result.  The code departs from
    it on this run: navigation raises inside the [try] block, closing the
    page raises in the [finally] block, which no handler covers, and the
    exception of the close leaves the routine in place of the failure
    result. *)
Theorem capture_raises_when_close_raises :
  (exists f,
     capture_try Scenario.broken_page "https://www.easydis.io/" 1920 1080 0 None
       false (clock Scenario.broken_page (log Scenario.fresh)) (enter Scenario.fresh)
     = (Raised {| exn_class := "Error"; exn_text := "net::ERR_NAME_NOT_RESOLVED" |}, f)) /\
  exists w',
    capture_screenshot Scenario.broken_page "https://www.easydis.io/" 1920 1080 0
      None false Scenario.fresh
    = (Raised {| exn_class := "Error"; exn_text := "Connection closed" |}, w').
Proof. split; eexists; vm_compute; reflexivity. Qed.

(** ** The element count *)

Ltac use_steps H :=
  repeat first
    [ rewrite (goto_returns _ _ H)
    | rewrite (wait_for_timeout_returns _ _ H)
    | rewrite (evaluate_counts _ _ H) by assumption
    | rewrite (steps_close_returns _ _ H)
    | rewrite Nat.eqb_refl
    | progress simpl
    | match goal with
      | |- context [answer_handle _ (AsyncPlaywrightStart :: ?l)] =>
          let E := fresh "E" in
          destruct (start_returns _ _ H l) as [? E]; rewrite E
      | |- context [answer_handle _ (ChromiumLaunch ?pw ?hl :: ?l)] =>
          let E := fresh "E" in
          destruct (launch_returns _ _ H l pw hl) as [? E]; rewrite E
      | |- context [answer_page _ (BrowserNewPage ?b ?vw ?vh :: ?l)] =>
          let E := fresh "E" in
          destruct (new_page_returns _ _ H l b vw vh) as [? E]; rewrite E
      | |- context [answer_bytes _ (PageScreenshot ?p ?ty ?fp :: ?l)] =>
          let E := fresh "E" in
          destruct (screenshot_returns _ _ H l p ty fp) as [? E]; rewrite E
      | |- context [match answer_unit ?d (PageWaitForSelector ?p ?s ?t :: ?l) with _ => _ end] =>
          let E := fresh "E" in
          destruct (answer_unit d (PageWaitForSelector p s t :: l)) as [[]|?e] eqn:E;
          [| rewrite (selector_wait_ordinary _ _ H _ _ _ _ _ E)]
      | |- context [if ?n >? 0 then _ else _] => destruct (n >? 0)
      end ].

(** C6, as the code has it: when every step of the capture returns, the
    wait for the selector apart, and the page closes, the capture returns a
    success result whether that wait returned or timed out.  Its
    [product_count] is null when no selector was given and when the selector
    given is the empty text; for a selector that pasting between double
    quotes leaves unchanged it is the number of elements of the page that
    match it, zero when there is none.  Nothing is said of a selector that
    holds a double quote, a backslash or a line break. *)
Theorem product_count_reported
    (drv : Driver) (count : Page -> string -> Z)
    (url : string) (width height wait_time : Z)
    (wait_for_selector : option string) (full_page : bool) (w : World) :
  steps_return drv count ->
  session_usable w ->
  match wait_for_selector with
  | Some selector => pastes_unchanged selector = true
  | None => True
  end ->
  exists result w' p rest,
    capture_screenshot drv url width height wait_time wait_for_selector full_page w
    = (Returned result, w') /\
    log w' = PageClose p :: rest /\
    Py.get "success" result = Some (Py.VBool true) /\
    product_count_of result
    = Some match wait_for_selector with
           | None => Py.VNone
           | Some selector =>
               if String.eqb selector EmptyString then Py.VNone
               else Py.VInt (count p selector)
           end.
Proof.
  intros H Hok Hplain. destruct w as [[b pw] pages l].
  assert (pw = None \/ exists b', b = Some b') as Hcase.
  { destruct Hok as [Hpw | Hb]; simpl in *; [left; exact Hpw | right].
    destruct b as [b'|]; [eauto | congruence]. }
  destruct wait_for_selector as [selector|];
    [destruct (String.eqb selector EmptyString) eqn:Hsel|];
    (destruct Hcase as [-> | [b' ->]]; [|destruct pw as [pw|]]);
    unfold_run; try rewrite Hsel; use_steps H;
    do 4 eexists; (split; [reflexivity|]); (split; [reflexivity|]);
    split; reflexivity.
Qed.

Lemma selector_missing_steps_return :
  steps_return Scenario.selector_missing (fun _ _ => 0).
Proof.
  constructor; try (intros; eexists; reflexivity); try (intros; reflexivity).
  intros l p selector timeout e. simpl. intros [= <-]. reflexivity.
Qed.

Lemma cooperative_steps_return :
  steps_return Scenario.cooperative (fun _ _ => 3).
Proof.
  constructor; try (intros; eexists; reflexivity); try (intros; reflexivity).
  intros l p selector timeout e. simpl. discriminate.
Qed.

Lemma product_count_reported_witness :
  exists result w',
    capture_screenshot Scenario.selector_missing "https://www.easydis.io/"
      1920 1080 0 (Some "[data-slot='card']") false Scenario.fresh
    = (Returned result, w') /\
    In (PageWaitForSelector 3%nat "[data-slot='card']" 30000) (log w') /\
    Py.get "success" result = Some (Py.VBool true) /\
    product_count_of result = Some (Py.VInt 0).
Proof.
  destruct (product_count_reported Scenario.selector_missing (fun _ _ => 0)
              "https://www.easydis.io/" 1920 1080 0 (Some "[data-slot='card']")
              false Scenario.fresh)
    as (result & w' & p & rest & Hrun & Hlog & Hok & Hcount).
  - exact selector_missing_steps_return.
  - left. reflexivity.
  - reflexivity.
  - exists result, w'. split; [exact Hrun|].
    split; [|split; [exact Hok | exact Hcount]].
    vm_compute in Hrun. injection Hrun as _ <-. simpl. tauto.
Defined.

(** C6 as stated fails for a selector that is supplied and empty: the
    capture succeeds and reports a null [product_count], on a page where
    every count gives three. *)
Lemma empty_selector_reports_null :
  steps_return Scenario.cooperative (fun _ _ => 3) /\
  exists result w',
    capture_screenshot Scenario.cooperative "https://www.easydis.io/"
      1920 1080 0 (Some EmptyString) false Scenario.fresh
    = (Returned result, w') /\
    Py.get "success" result = Some (Py.VBool true) /\
    product_count_of result = Some Py.VNone.
Proof.
  split; [exact cooperative_steps_return|].
  eexists. eexists. split; [vm_compute; reflexivity|]. split; reflexivity.
Qed.

(** * Further properties of the code *)

(** ** Base64 *)

Lemma b64_alphabet (n : N) :
  (n < 64)%N ->
  Base64.index (Py.b64_char n) = n /\ Ascii.eqb (Py.b64_char n) Base64.pad = false.
Proof.
  intros Hn.
  assert (forallb
            (fun m => (Base64.index (Py.b64_char m) =? m)%N
                      && negb (Ascii.eqb (Py.b64_char m) Base64.pad))
            (List.map N.of_nat (seq 0 64)) = true) as Hall
    by (vm_compute; reflexivity).
  rewrite forallb_forall in Hall.
  specialize (Hall n). rewrite andb_true_iff, negb_true_iff, N.eqb_eq in Hall.
  apply Hall. apply in_map_iff. exists (N.to_nat n).
  split; [apply N2Nat.id | apply in_seq; lia].
Qed.

Lemma byte_of_to_N (a : Byte.byte) : Base64.byte_of (Byte.to_N a) = a.
Proof. unfold Base64.byte_of. rewrite Byte.of_to_N. reflexivity. Qed.

Lemma to_N_small (a : Byte.byte) : (Byte.to_N a < 256)%N.
Proof. pose proof (Byte.to_N_bounded a). lia. Qed.

Lemma by_triples {A} (P : list A -> Prop) :
  P [] -> (forall a, P [a]) -> (forall a b, P [a; b]) ->
  (forall a b c rest, P rest -> P (a :: b :: c :: rest)) ->
  forall l, P l.
Proof.
  intros H0 H1 H2 H3.
  assert (forall n l, (List.length l <= n)%nat -> P l) as Hn.
  { induction n as [|n IH]; intros l Hl.
    - destruct l; [exact H0 | simpl in Hl; lia].
    - destruct l as [|a [|b [|c rest]]]; auto.
      apply H3. apply IH. simpl in Hl. lia. }
  intros l. apply (Hn (List.length l)). lia.
Qed.

Ltac euclid := zify; Z.to_euclidean_division_equations; lia.

Lemma decode_group (x y z : N) (rest : string) :
  (x < 256)%N -> (y < 256)%N -> (z < 256)%N ->
  Base64.b64decode
    (String (Py.b64_char (x / 4))
       (String (Py.b64_char ((x mod 4) * 16 + y / 16))
          (String (Py.b64_char ((y mod 16) * 4 + z / 64))
             (String (Py.b64_char (z mod 64)) rest))))
  = Base64.byte_of x :: Base64.byte_of y :: Base64.byte_of z
      :: Base64.b64decode rest.
Proof.
  intros Hx Hy Hz.
  destruct (b64_alphabet (x / 4)%N) as [E1 _]; [euclid|].
  destruct (b64_alphabet ((x mod 4) * 16 + y / 16)%N) as [E2 _]; [euclid|].
  destruct (b64_alphabet ((y mod 16) * 4 + z / 64)%N) as [E3 _]; [euclid|].
  destruct (b64_alphabet (z mod 64)%N) as [E4 P4]; [euclid|].
  cbv beta iota delta [Base64.b64decode]. fold Base64.b64decode.
  rewrite E1, E2, E3, E4, P4. cbv zeta.
  replace (x / 4 * 4 + ((x mod 4) * 16 + y / 16) / 16)%N with x by euclid.
  replace ((((x mod 4) * 16 + y / 16) mod 16) * 16
           + ((y mod 16) * 4 + z / 64) / 4)%N with y by euclid.
  replace ((((y mod 16) * 4 + z / 64) mod 4) * 64 + z mod 64)%N with z by euclid.
  reflexivity.
Qed.

Lemma decode_last_one (x : N) :
  (x < 256)%N ->
  Base64.b64decode
    (String (Py.b64_char (x / 4)) (String (Py.b64_char ((x mod 4) * 16)) "=="))
  = [Base64.byte_of x].
Proof.
  intros Hx.
  destruct (b64_alphabet (x / 4)%N) as [E1 _]; [euclid|].
  destruct (b64_alphabet ((x mod 4) * 16)%N) as [E2 _]; [euclid|].
  cbv beta iota delta [Base64.b64decode].
  rewrite E1, E2. cbv zeta.
  replace (x / 4 * 4 + (x mod 4) * 16 / 16)%N with x by euclid.
  reflexivity.
Qed.

Lemma decode_last_two (x y : N) :
  (x < 256)%N -> (y < 256)%N ->
  Base64.b64decode
    (String (Py.b64_char (x / 4))
       (String (Py.b64_char ((x mod 4) * 16 + y / 16))
          (String (Py.b64_char ((y mod 16) * 4)) "=")))
  = [Base64.byte_of x; Base64.byte_of y].
Proof.
  intros Hx Hy.
  destruct (b64_alphabet (x / 4)%N) as [E1 _]; [euclid|].
  destruct (b64_alphabet ((x mod 4) * 16 + y / 16)%N) as [E2 _]; [euclid|].
  destruct (b64_alphabet ((y mod 16) * 4)%N) as [E3 P3]; [euclid|].
  cbv beta iota delta [Base64.b64decode].
  rewrite E1, E2, E3, P3. cbv zeta.
  replace (x / 4 * 4 + ((x mod 4) * 16 + y / 16) / 16)%N with x by euclid.
  replace ((((x mod 4) * 16 + y / 16) mod 16) * 16 + (y mod 16) * 4 / 4)%N
    with y by euclid.
  reflexivity.
Qed.

Lemma b64decode_b64encode (data : list Byte.byte) :
  Base64.b64decode (Py.b64encode data) = data.
Proof.
  induction data as [|a|a b|a b c rest IH] using by_triples.
  - reflexivity.
  - change (Py.b64encode [a]) with
      (String (Py.b64_char (Byte.to_N a / 4))
         (String (Py.b64_char ((Byte.to_N a mod 4) * 16)) "==")).
    rewrite decode_last_one by apply to_N_small.
    rewrite byte_of_to_N. reflexivity.
  - change (Py.b64encode [a; b]) with
      (String (Py.b64_char (Byte.to_N a / 4))
         (String (Py.b64_char ((Byte.to_N a mod 4) * 16 + Byte.to_N b / 16))
            (String (Py.b64_char ((Byte.to_N b mod 16) * 4)) "="))).
    rewrite decode_last_two by apply to_N_small.
    rewrite !byte_of_to_N. reflexivity.
  - change (Py.b64encode (a :: b :: c :: rest)) with
      (String (Py.b64_char (Byte.to_N a / 4))
         (String (Py.b64_char ((Byte.to_N a mod 4) * 16 + Byte.to_N b / 16))
            (String (Py.b64_char ((Byte.to_N b mod 16) * 4 + Byte.to_N c / 64))
               (String (Py.b64_char (Byte.to_N c mod 64)) (Py.b64encode rest))))).
    rewrite decode_group by apply to_N_small.
    rewrite !byte_of_to_N, IH. reflexivity.
Qed.

(** X4: the encoding of the image loses nothing: decoding [image_base64]
    gives back the bytes of the screenshot, so two screenshots with the
    same encoding are the same. *)
Theorem b64encode_loses_nothing (data : list Byte.byte) :
  Base64.b64decode (Py.b64encode data) = data /\
  forall other, Py.b64encode other = Py.b64encode data -> other = data.
Proof.
  split; [apply b64decode_b64encode|].
  intros other H.
  rewrite <- (b64decode_b64encode other), H. apply b64decode_b64encode.
Qed.

(** X5: the text that encodes [n] bytes has 4 * ceil(n / 3) characters;
    this ties the length of [image_base64] to [image_size_bytes]. *)
Theorem b64encode_length (data : list Byte.byte) :
  String.length (Py.b64encode data) = (4 * ((List.length data + 2) / 3))%nat.
Proof.
  induction data as [|a|a b|a b c rest IH] using by_triples;
    try reflexivity.
  change (Py.b64encode (a :: b :: c :: rest)) with
      (String (Py.b64_char (Byte.to_N a / 4))
         (String (Py.b64_char ((Byte.to_N a mod 4) * 16 + Byte.to_N b / 16))
            (String (Py.b64_char ((Byte.to_N b mod 16) * 4 + Byte.to_N c / 64))
               (String (Py.b64_char (Byte.to_N c mod 64)) (Py.b64encode rest))))).
  cbn [String.length List.length]. rewrite IH.
  replace (S (S (S (List.length rest))) + 2)%nat
    with (List.length rest + 2 + 1 * 3)%nat by lia.
  rewrite Nat.div_add by lia. lia.
Qed.

(** ** Loading the allow-list *)

Lemma split_not_nil (sep : ascii) (s : string) : Py.split sep s <> [].
Proof.
  destruct s as [|c s]; simpl; [discriminate|].
  destruct (Ascii.eqb c sep); [discriminate|].
  destruct (Py.split sep s); discriminate.
Qed.

Lemma join_cons_char (sep : string) (c : ascii) (field : string)
    (fields : list string) :
  Py.join sep (String c field :: fields) = String c (Py.join sep (field :: fields)).
Proof. destruct fields; reflexivity. Qed.

Lemma join_split (sep : ascii) (s : string) :
  Py.join (String sep EmptyString) (Py.split sep s) = s.
Proof.
  induction s as [|c s IH]; [reflexivity|]. simpl.
  destruct (Ascii.eqb c sep) eqn:E.
  - apply Ascii.eqb_eq in E. subst c.
    destruct (Py.split sep s) as [|field fields] eqn:Hs;
      [destruct (split_not_nil sep s Hs)|].
    change (Py.join (String sep EmptyString) (EmptyString :: field :: fields))
      with (EmptyString +:+ String sep EmptyString
            +:+ Py.join (String sep EmptyString) (field :: fields)).
    rewrite IH. reflexivity.
  - destruct (Py.split sep s) as [|field fields] eqn:Hs;
      [destruct (split_not_nil sep s Hs)|].
    rewrite join_cons_char, IH. reflexivity.
Qed.

Lemma split_fields_clean (sep : ascii) (s : string) :
  List.Forall (fun field => Py.has_char sep field = false) (Py.split sep s).
Proof.
  induction s as [|c s IH]; simpl; [repeat constructor|].
  destruct (Ascii.eqb c sep) eqn:E; [constructor; [reflexivity | exact IH]|].
  destruct (Py.split sep s) as [|field fields];
    [repeat constructor; simpl; rewrite Ascii.eqb_sym, E; reflexivity|].
  inversion IH as [|? ? Hfield Hfields]; subst.
  constructor; [|exact Hfields].
  simpl. rewrite Ascii.eqb_sym, E. exact Hfield.
Qed.

(** X1: the allow-list is the configured text cut at its commas and nothing
    else: it is never empty, none of its entries contains a comma, and
    joining the entries with commas gives back the text.  Entries are kept
    as written, spaces and empty entries included. *)
Theorem allowed_domains_verbatim (environ : gmap string string) :
  let text := Config.getenv environ "ALLOWED_DOMAINS" "easydis.io,www.easydis.io" in
  let domains := Config.ALLOWED_DOMAINS (Config.load environ) in
  domains <> [] /\
  Py.join "," domains = text /\
  List.Forall (fun domain => Py.has_char Config.comma domain = false) domains.
Proof.
  simpl. split; [apply split_not_nil|]. split.
  - apply (join_split Config.comma).
  - apply split_fields_clean.
Qed.

(** ** Lists that allow the same URLs *)

Lemma append_assoc (a b c : string) : (a +:+ b) +:+ c = a +:+ (b +:+ c).
Proof.
  induction a as [|x a IH]; [reflexivity|].
  rewrite !append_cons, IH. reflexivity.
Qed.

Lemma occurs_in_trans (a b c : string) :
  Py.occurs_in a b -> Py.occurs_in b c -> Py.occurs_in a c.
Proof.
  intros (p1 & q1 & ->) (p2 & q2 & ->).
  exists (p2 +:+ p1), (q1 +:+ q2).
  rewrite !append_assoc. reflexivity.
Qed.

(** X2: when every entry of one allow-list contains an entry of another as
    a substring, the other list allows every URL the first one allows.  An
    entry that contains another entry of the same list adds nothing. *)
Theorem allow_list_covers (settings settings' : Config.Settings) (url : string) :
  (forall domain', In domain' (Config.ALLOWED_DOMAINS settings') ->
     exists domain,
       In domain (Config.ALLOWED_DOMAINS settings) /\ Py.occurs_in domain domain') ->
  Config.is_domain_allowed settings' url = true ->
  Config.is_domain_allowed settings url = true.
Proof.
  unfold Config.is_domain_allowed. intros Hcover H.
  apply any_domain_in_true in H as (d' & Hin' & Hd').
  destruct (Hcover d' Hin') as (d & Hin & Hocc).
  apply any_domain_in_true. exists d. split; [exact Hin|].
  apply contains_occurs. eapply occurs_in_trans; [exact Hocc|].
  apply contains_occurs. exact Hd'.
Qed.

Lemma allow_list_covers_witness :
  Config.is_domain_allowed
    {| Config.API_KEY := "k"; Config.ALLOWED_DOMAINS := ["easydis.io"];
       Config.BROWSER_TYPE := "chromium" |}
    "https://www.easydis.io/screen/1" = true.
Proof.
  apply (allow_list_covers _ (Config.load ∅)).
  - intros domain' [<- | [<- | []]]; exists "easydis.io";
      (split; [left; reflexivity | apply contains_occurs; reflexivity]).
  - reflexivity.
Defined.

Ltac open_run :=
  repeat (progress
    (unfold capture_screenshot, try_finally, try_except, capture_try,
       capture_except, capture_finally, initialize, cleanup, new_page,
       page_close, browser_close, if_selector, lift, bind, ret, raise, await,
       get_self, put_self, set_page, get_page, time_time, enter;
     simpl)).

Ltac case_run :=
  repeat first
    [ rewrite Nat.eqb_refl
    | progress simpl
    | progress open_run
    | match goal with
      | |- context [match answer_handle ?d ?l with _ => _ end] =>
          destruct (answer_handle d l) eqn:?
      | |- context [match answer_page ?d ?l with _ => _ end] =>
          destruct (answer_page d l) eqn:?
      | |- context [match answer_unit ?d ?l with _ => _ end] =>
          destruct (answer_unit d l) eqn:?
      | |- context [match answer_value ?d ?l with _ => _ end] =>
          destruct (answer_value d l) eqn:?
      | |- context [match answer_bytes ?d ?l with _ => _ end] =>
          destruct (answer_bytes d l) eqn:?
      | |- context [if is_exception ?e then _ else _] =>
          destruct (is_exception e) eqn:?
      | |- context [if negb (String.eqb ?s EmptyString) then _ else _] =>
          destruct (String.eqb s EmptyString) eqn:?
      | |- context [if ?n >? 0 then _ else _] => destruct (n >? 0) eqn:?
      end ].

(** Every way a capture can go, for the statements below. *)
Ltac every_run w wait_for_selector :=
  let b := fresh "b" in
  let pw := fresh "pw" in
  let pages := fresh "pages" in
  let l := fresh "l" in
  destruct w as [[b pw] pages l];
  destruct pw as [pw|]; destruct b as [b|];
  destruct wait_for_selector as [?selector|];
  open_run; case_run.

Ltac limit_facts :=
  repeat match goal with
  | H : (_ >? 0) = true |- _ => apply Z.gtb_lt in H
  | H : (_ >? 0) = false |- _ => rewrite Z.gtb_ltb, Z.ltb_ge in H
  | H : String.eqb _ _ = false |- _ => apply String.eqb_neq in H
  | H : String.eqb _ _ = true |- _ => apply String.eqb_eq in H
  end.

Ltac grow :=
  repeat first
    [ apply Log.grows_none
    | apply Log.grows_call; [simpl; eauto 6 |] ].

Ltac escaped :=
  lazymatch goal with
  | |- True => exact I
  | |- exists l, Log.raises ?d l ?e /\ _ =>
      match goal with
      | H : _ d ?l = Raised e |- _ =>
          exists l; split;
          [exact H | first [left; assumption | right; do 2 eexists; reflexivity]]
      end
  end.

(** The calls of a capture: each one carries the arguments of the request
    and the literals of the code; each kind of call is made at most once;
    the fields of the session move only while the driver handle is unset;
    an exception that leaves the capture was raised by a call to the driver,
    and it is outside [Exception] or was raised by closing the page. *)
Lemma capture_calls
    (drv : Driver) (url : string) (width height wait_time : Z)
    (wait_for_selector : option string) (full_page : bool)
    (w w' : World) (r : Reply Py.value) :
  capture_screenshot drv url width height wait_time wait_for_selector full_page w
  = (r, w') ->
  Log.grows
    (Log.capture_call (self w) url width height wait_time wait_for_selector full_page)
    (log w) (log w') /\
  (playwright (self w) <> None -> self w' = self w) /\
  (Log.count Log.is_new_page (log w') <= Log.count Log.is_new_page (log w) + 1)%nat /\
  (Log.count Log.is_screenshot (log w') <= Log.count Log.is_screenshot (log w) + 1)%nat /\
  match r with
  | Returned _ => True
  | Raised e =>
      exists l,
        Log.raises drv l e /\
        (is_exception e = false \/ exists p rest, l = PageClose p :: rest)
  end.
Proof.
  intros H. revert H. every_run w wait_for_selector;
    intros [= <- <-]; limit_facts;
    (split; [grow|]);
    (split; [intros Hpw; first [reflexivity | congruence]|]);
    simpl; (split; [lia|]); (split; [lia|]); escaped.
Qed.

Lemma grows_weaken (P Q : Call -> Prop) (l l' : list Call) :
  (forall c, P c -> Q c) -> Log.grows P l l' -> Log.grows Q l l'.
Proof. intros HPQ H. induction H; constructor; auto. Qed.

Lemma grows_Forall (P : Call -> Prop) (l l' : list Call) :
  Log.grows P l l' -> List.Forall P l -> List.Forall P l'.
Proof. intros H Hl. induction H; [exact Hl | constructor; auto]. Qed.

Lemma grows_count (P : Call -> Prop) (p : Call -> bool) (l l' : list Call) :
  (forall c, P c -> p c = false) ->
  Log.grows P l l' -> Log.count p l' = Log.count p l.
Proof.
  intros Hp H. induction H as [|c l' Hc H IH]; [reflexivity|].
  simpl. rewrite (Hp c Hc). exact IH.
Qed.

Lemma grows_trans (P : Call -> Prop) (l1 l2 l3 : list Call) :
  Log.grows P l1 l2 -> Log.grows P l2 l3 -> Log.grows P l1 l3.
Proof. intros H12 H23. induction H23; [exact H12 | constructor; auto]. Qed.

Lemma grows_clock (drv : Driver) (P : Call -> Prop) (l l' : list Call) :
  Log.monotone_clock drv -> Log.grows P l l' ->
  Qle (clock drv l) (clock drv l').
Proof.
  intros Hm H. induction H as [|c l' _ _ IH]; [apply Qle_refl|].
  eapply Qle_trans; [exact IH | apply Hm].
Qed.

Lemma quot_den_nonneg (d : Q) : Qle 0 d -> 0 <= Z.quot (Qnum d) (Z.pos (Qden d)).
Proof.
  intros H. apply Z.quot_pos; [|lia].
  unfold Qle in H. simpl in H. lia.
Qed.

Lemma elapsed_ms_nonneg (start now : Q) :
  Qle start now -> 0 <= elapsed_ms start now.
Proof.
  intros H. unfold elapsed_ms. apply quot_den_nonneg.
  apply Qmult_le_0_compat; [|discriminate].
  apply Qle_minus_iff in H. exact H.
Qed.


(** What a capture returns: a success result built from the bytes of the
    screenshot, or a failure result; in both the elapsed time is measured
    from the entry of the routine to a later point of the log. *)
Lemma capture_result_shape
    (drv : Driver) (url : string) (width height wait_time : Z)
    (wait_for_selector : option string) (full_page : bool)
    (w w' : World) (result : Py.value) :
  capture_screenshot drv url width height wait_time wait_for_selector full_page w
  = (Returned result, w') ->
  exists t l_end,
    ((exists data product_count p l,
        answer_bytes drv (PageScreenshot p "png" full_page :: l) = Returned data /\
        (Py.truthy_str wait_for_selector = false -> product_count = Py.VNone) /\
        result = success_result (Py.b64encode data) t
                   (Z.of_nat (List.length data)) url width height product_count) \/
     (exists text, result = failure_result text t url)) /\
    t = elapsed_ms (clock drv (log w)) (clock drv l_end) /\
    Log.grows (fun _ => True) (log w) l_end.
Proof.
  intros H. revert H. every_run w wait_for_selector;
    intros [= <- <-];
    do 2 eexists;
    (split;
     [ first
         [ right; eexists; reflexivity
         | left; do 4 eexists; split; [eassumption|]; split; [|reflexivity];
           simpl; intros Hs; first [reflexivity | congruence] ]
     | split; [reflexivity | grow] ]).
Qed.

(** ** The endpoint, case by case *)

Lemma verify_api_key_error (settings : Config.Settings) (api_key : option string)
    (e : Auth.HTTPException) :
  Auth.verify_api_key settings api_key = inl e ->
  e = Auth.missing_key \/ e = Auth.invalid_key.
Proof.
  unfold Auth.verify_api_key.
  destruct (negb (Py.truthy_str api_key)); [intros [= <-]; auto|].
  destruct api_key as [key|]; [|intros [= <-]; auto].
  destruct (negb (String.eqb key (Config.API_KEY settings)));
    [intros [= <-]; auto | discriminate].
Qed.

Lemma validate_error_fields (http_url : string -> option string) (b : Models.Body)
    (fields : list string) :
  Models.validate http_url b = inl fields -> fields <> [].
Proof.
  unfold Models.validate.
  destruct (Models.check_url http_url (Models.body_url b));
  destruct (Models.check_width (Models.body_width b));
  destruct (Models.check_height (Models.body_height b));
  destruct (Models.check_wait_time (Models.body_wait_time b));
  intros [= <-]; discriminate.
Qed.

Lemma take_screenshot_outcome
    (settings : Config.Settings) (drv : Driver)
    (request : Models.ScreenshotRequest) (api_key : string)
    (w w' : World) (out : Main.Outcome) :
  Main.take_screenshot settings drv request api_key w = (out, w') ->
  match out with
  | Main.Responded r =>
      Models.success r = true /\
      (exists data, Models.image_base64 r = Some (Py.b64encode data)) /\
      Models.error r = None /\
      (exists items, Models.metadata r = Some (Py.VDict items))
  | Main.Failed e =>
      (e = Main.domain_not_allowed settings /\ w' = w) \/
      (Auth.status_code e = 500 /\ exists text, Auth.detail e = Py.VStr text)
  | Main.Unprocessable _ => False
  | Main.Crashed e =>
      exists l,
        Log.raises drv l e /\
        (is_exception e = false \/ exists p rest, l = PageClose p :: rest)
  end.
Proof.
  unfold Main.take_screenshot.
  destruct (Config.is_domain_allowed settings (Models.url request));
    [|intros [= <- <-]; left; auto].
  simpl.
  destruct (capture_screenshot drv (Models.url request) (Models.width request)
              (Models.height request) (Models.wait_time request)
              (Models.wait_for_selector request) (Models.full_page request) w)
    as [[result|e] w1] eqn:E.
  - apply capture_result_shape in E
      as (t & l_end & [(data & pc & p & l & _ & _ & ->) | (text & ->)] & _ & _).
    + intros [= <- <-]. simpl. eauto 10.
    + intros [= <- <-]. right. simpl. eauto.
  - apply capture_calls in E as (_ & _ & _ & _ & E).
    intros [= <- <-]. exact E.
Qed.

(** X13: the ways a request to [POST /screenshot] can end.  A response
    always says [success] true, carries an encoded image and metadata and
    no [error]; an HTTP error is 401 or 403 with the world untouched, or 500
    with a text as detail; a validation error leaves the world untouched;
    an exception that leaves the endpoint was raised by a call to the
    driver, and either its class is outside [Exception] (a cancellation,
    say) or the call was the closing of the page. *)
Theorem endpoint_outcomes
    (settings : Config.Settings) (drv : Driver)
    (http_url : string -> option string) (header : option string)
    (body : Models.Body) (w w' : World) (out : Main.Outcome) :
  Main.post_screenshot settings drv http_url header body w = (out, w') ->
  match out with
  | Main.Responded r =>
      Models.success r = true /\
      (exists data, Models.image_base64 r = Some (Py.b64encode data)) /\
      Models.error r = None /\
      (exists items, Models.metadata r = Some (Py.VDict items))
  | Main.Failed e =>
      (e = Auth.missing_key /\ w' = w) \/
      (e = Auth.invalid_key /\ w' = w) \/
      (e = Main.domain_not_allowed settings /\ w' = w) \/
      (Auth.status_code e = 500 /\ exists text, Auth.detail e = Py.VStr text)
  | Main.Unprocessable fields => fields <> [] /\ w' = w
  | Main.Crashed e =>
      exists l,
        Log.raises drv l e /\
        (is_exception e = false \/ exists p rest, l = PageClose p :: rest)
  end.
Proof.
  unfold Main.post_screenshot.
  destruct (Auth.verify_api_key settings (Auth.api_key_header header))
    as [e|key] eqn:Hkey.
  - intros [= <- <-]. apply verify_api_key_error in Hkey as [-> | ->]; auto.
  - destruct (Models.validate http_url body) as [fields|request] eqn:Hbody.
    + intros [= <- <-]. split; [|reflexivity].
      eapply validate_error_fields. exact Hbody.
    + intros H. apply take_screenshot_outcome in H.
      destruct out; auto. destruct H.
Qed.

Lemma endpoint_outcomes_witness :
  match fst (Main.post_screenshot (Config.load ∅) Scenario.cooperative
               Scenario.accept_any (Some "change-me-in-production")
               {| Models.body_url := Some "https://www.easydis.io/";
                  Models.body_width := None; Models.body_height := None;
                  Models.body_wait_time := Some 0;
                  Models.body_wait_for_selector := None;
                  Models.body_full_page := None |}
               Scenario.fresh) with
  | Main.Responded r => Models.success r = true /\ Models.error r = None
  | _ => False
  end.
Proof.
  pose proof (endpoint_outcomes (Config.load ∅) Scenario.cooperative
                Scenario.accept_any (Some "change-me-in-production")
                {| Models.body_url := Some "https://www.easydis.io/";
                   Models.body_width := None; Models.body_height := None;
                   Models.body_wait_time := Some 0;
                   Models.body_wait_for_selector := None;
                   Models.body_full_page := None |}
                Scenario.fresh _ _ (surjective_pairing _)) as H.
  vm_compute in H. vm_compute. destruct H as (Hs & _ & He & _). split; assumption.
Defined.

(** X14: when closing the page does not raise, a capture whose [try] block
    raises an exception whose class derives from [Exception] is answered 500
    with the text of the exception as detail; the fallback text of the
    endpoint is not used. *)
Theorem capture_failure_is_500
    (settings : Config.Settings) (drv : Driver)
    (request : Models.ScreenshotRequest) (api_key : string) (w : World)
    (e : PyExn) (f : Frame) :
  close_returns drv ->
  Config.is_domain_allowed settings (Models.url request) = true ->
  capture_try drv (Models.url request) (Models.width request)
    (Models.height request) (Models.wait_time request)
    (Models.wait_for_selector request) (Models.full_page request)
    (clock drv (log w)) (enter w) = (Raised e, f) ->
  is_exception e = true ->
  exists w',
    Main.take_screenshot settings drv request api_key w
    = (Main.Failed {| Auth.status_code := 500;
                      Auth.detail := Py.VStr (exn_text e) |}, w').
Proof.
  intros Hclose Hallowed Htry He.
  destruct (capture_returns_when_close_returns drv (Models.url request)
              (Models.width request) (Models.height request)
              (Models.wait_time request) (Models.wait_for_selector request)
              (Models.full_page request) w Hclose) as (_ & Hfail & _).
  destruct (Hfail e f Htry He) as (t & w' & Hrun).
  exists w'. unfold Main.take_screenshot. rewrite Hallowed. simpl.
  rewrite Hrun. reflexivity.
Qed.

Lemma capture_failure_is_500_witness :
  exists w',
    Main.take_screenshot (Config.load ∅) Scenario.unreachable_host
      {| Models.url := "https://no-such.easydis.io/"; Models.width := 1920;
         Models.height := 1080; Models.wait_time := 0;
         Models.wait_for_selector := None; Models.full_page := false |}
      "change-me-in-production" Scenario.fresh
    = (Main.Failed {| Auth.status_code := 500;
                      Auth.detail := Py.VStr "net::ERR_NAME_NOT_RESOLVED" |}, w').
Proof.
  eapply (capture_failure_is_500 (Config.load ∅) Scenario.unreachable_host
            {| Models.url := "https://no-such.easydis.io/"; Models.width := 1920;
               Models.height := 1080; Models.wait_time := 0;
               Models.wait_for_selector := None; Models.full_page := false |}
            "change-me-in-production" Scenario.fresh
            {| exn_class := "Error"; exn_text := "net::ERR_NAME_NOT_RESOLVED" |}).
  - intros l p. reflexivity.
  - reflexivity.
  - vm_compute. reflexivity.
  - reflexivity.
Defined.

(** X15: the driver is called only for a request that passed the key
    guard, the validation of the body and the allow-list. *)
Theorem browser_touched_only_after_checks
    (settings : Config.Settings) (drv : Driver)
    (http_url : string -> option string) (header : option string)
    (body : Models.Body) (w : World) :
  log (snd (Main.post_screenshot settings drv http_url header body w)) <> log w ->
  exists key request,
    Auth.verify_api_key settings (Auth.api_key_header header) = inr key /\
    Models.validate http_url body = inr request /\
    Config.is_domain_allowed settings (Models.url request) = true.
Proof.
  unfold Main.post_screenshot.
  destruct (Auth.verify_api_key settings (Auth.api_key_header header))
    as [e|key] eqn:Hkey; [intros H; destruct H; reflexivity|].
  destruct (Models.validate http_url body) as [fields|request] eqn:Hbody;
    [intros H; destruct H; reflexivity|].
  unfold Main.take_screenshot.
  destruct (Config.is_domain_allowed settings (Models.url request)) eqn:Hallowed;
    [|intros H; destruct H; reflexivity].
  intros _. exists key, request. auto.
Qed.

(** ** What reaches the driver *)

Lemma capture_call_within_limits
    (session : ScreenshotService) (url : string) (width height wait_time : Z)
    (wait_for_selector : option string) (full_page : bool) (c : Call) :
  800 <= width <= 3840 -> 600 <= height <= 2160 -> 0 <= wait_time <= 60000 ->
  Log.capture_call session url width height wait_time wait_for_selector full_page c ->
  Log.within_limits c.
Proof.
  intros Hw Hh Ht. destruct c; simpl; try tauto.
  - intros [-> ->]. auto.
  - intros [-> H]. lia.
Qed.

Lemma take_screenshot_world
    (settings : Config.Settings) (drv : Driver)
    (request : Models.ScreenshotRequest) (api_key : string) (w : World) :
  snd (Main.take_screenshot settings drv request api_key w)
  = if Config.is_domain_allowed settings (Models.url request)
    then snd (capture_screenshot drv (Models.url request) (Models.width request)
                (Models.height request) (Models.wait_time request)
                (Models.wait_for_selector request) (Models.full_page request) w)
    else w.
Proof.
  unfold Main.take_screenshot.
  destruct (Config.is_domain_allowed settings (Models.url request));
    [|reflexivity].
  simpl.
  destruct (capture_screenshot drv (Models.url request) (Models.width request)
              (Models.height request) (Models.wait_time request)
              (Models.wait_for_selector request) (Models.full_page request) w)
    as [[result|e] w1]; [|reflexivity].
  simpl. destruct (Py.get "success" result) as [ok|]; [|reflexivity].
  destruct (negb (Py.truthy ok)); [reflexivity|].
  destruct (Main.response_of result); reflexivity.
Qed.

(** The world after a request: the one before it, or the one a capture
    with validated arguments leaves. *)
Lemma post_screenshot_world
    (settings : Config.Settings) (drv : Driver)
    (http_url : string -> option string) (header : option string)
    (body : Models.Body) (w : World) :
  snd (Main.post_screenshot settings drv http_url header body w) = w \/
  exists request,
    Models.validate http_url body = inr request /\
    snd (Main.post_screenshot settings drv http_url header body w)
    = snd (capture_screenshot drv (Models.url request) (Models.width request)
             (Models.height request) (Models.wait_time request)
             (Models.wait_for_selector request) (Models.full_page request) w).
Proof.
  unfold Main.post_screenshot.
  destruct (Auth.verify_api_key settings (Auth.api_key_header header));
    [left; reflexivity|].
  destruct (Models.validate http_url body) as [fields|request];
    [left; reflexivity|].
  rewrite take_screenshot_world.
  destruct (Config.is_domain_allowed settings (Models.url request));
    [right; eauto | left; reflexivity].
Qed.

(** X16: whatever is requested, the calls that reach the driver stay within
    the limits: viewports within 800..3840 by 600..2160, fixed waits within
    1..60000 ms, navigation with 60000 ms, selector waits with 30000 ms and
    a non-empty selector, PNG screenshots, headless launches. *)
Theorem endpoint_within_limits
    (settings : Config.Settings) (drv : Driver)
    (http_url : string -> option string) (header : option string)
    (body : Models.Body) (w : World) :
  List.Forall Log.within_limits (log w) ->
  List.Forall Log.within_limits
    (log (snd (Main.post_screenshot settings drv http_url header body w))).
Proof.
  intros Hlog.
  destruct (post_screenshot_world settings drv http_url header body w)
    as [-> | (request & Hbody & ->)]; [exact Hlog|].
  apply validate_bounds in Hbody as (Hw & Hh & Ht).
  destruct (capture_screenshot drv (Models.url request) (Models.width request)
              (Models.height request) (Models.wait_time request)
              (Models.wait_for_selector request) (Models.full_page request) w)
    as [r w1] eqn:E.
  apply capture_calls in E as (Hgrows & _). simpl.
  eapply grows_Forall; [|exact Hlog].
  eapply grows_weaken; [|exact Hgrows].
  intros c. apply capture_call_within_limits; assumption.
Qed.

Lemma endpoint_within_limits_witness :
  List.Forall Log.within_limits
    (log (snd (Main.post_screenshot (Config.load ∅) Scenario.cooperative
                 Scenario.accept_any (Some "change-me-in-production")
                 {| Models.body_url := Some "https://www.easydis.io/";
                    Models.body_width := Some 3840; Models.body_height := Some 600;
                    Models.body_wait_time := Some 60000;
                    Models.body_wait_for_selector := Some ".card";
                    Models.body_full_page := Some true |}
                 Scenario.fresh))).
Proof.
  apply (endpoint_within_limits (Config.load ∅) Scenario.cooperative).
  simpl. constructor.
Defined.

(** ** The session over the life of the service *)

Lemma capture_call_not_start
    (session : ScreenshotService) (url : string) (width height wait_time : Z)
    (wait_for_selector : option string) (full_page : bool) (c : Call) :
  playwright session <> None ->
  Log.capture_call session url width height wait_time wait_for_selector full_page c ->
  Log.is_start c = false /\ Log.is_launch c = false.
Proof. intros Hpw. destruct c; simpl; auto; intros H; tauto. Qed.

Lemma post_screenshot_keeps_session
    (settings : Config.Settings) (drv : Driver)
    (http_url : string -> option string) (header : option string)
    (body : Models.Body) (w : World) :
  playwright (self w) <> None ->
  self (snd (Main.post_screenshot settings drv http_url header body w)) = self w /\
  Log.count Log.is_start
    (log (snd (Main.post_screenshot settings drv http_url header body w)))
  = Log.count Log.is_start (log w) /\
  Log.count Log.is_launch
    (log (snd (Main.post_screenshot settings drv http_url header body w)))
  = Log.count Log.is_launch (log w).
Proof.
  intros Hpw.
  destruct (post_screenshot_world settings drv http_url header body w)
    as [-> | (request & _ & ->)]; [auto|].
  destruct (capture_screenshot drv (Models.url request) (Models.width request)
              (Models.height request) (Models.wait_time request)
              (Models.wait_for_selector request) (Models.full_page request) w)
    as [r w1] eqn:E.
  apply capture_calls in E as (Hgrows & Hself & _). simpl.
  split; [auto|]. split.
  - eapply grows_count; [|exact Hgrows].
    intros c Hc. eapply capture_call_not_start; eassumption.
  - eapply grows_count; [|exact Hgrows].
    intros c Hc. eapply capture_call_not_start; eassumption.
Qed.

(** Every request gets its outcome, an exception that left the endpoint
    being the outcome [Crashed] of its request.  On a session
    whose driver handle is set, the fields of the session stay as they are
    and the driver is neither started nor asked to launch a browser. *)
Lemma serve_keeps_session
    (settings : Config.Settings) (drv : Driver)
    (http_url : string -> option string) (requests : list App.Request) :
  forall w,
  exists outcomes w',
    App.serve settings drv http_url requests w = (Returned outcomes, w') /\
    List.length outcomes = List.length requests /\
    (playwright (self w) <> None ->
     self w' = self w /\
     Log.count Log.is_start (log w') = Log.count Log.is_start (log w) /\
     Log.count Log.is_launch (log w') = Log.count Log.is_launch (log w)).
Proof.
  induction requests as [|r rest IH]; intros w.
  - exists [], w. simpl. unfold ret. auto.
  - simpl.
    pose proof (post_screenshot_keeps_session settings drv http_url
                  (App.x_api_key r) (App.body r) w) as Hpost.
    destruct (Main.post_screenshot settings drv http_url (App.x_api_key r)
                (App.body r) w) as [outcome w1].
    simpl in Hpost.
    destruct (IH w1) as (outcomes & w2 & -> & Hlen & Hrest).
    exists (outcome :: outcomes), w2. split; [reflexivity|].
    split; [simpl; congruence|].
    intros Hpw. destruct (Hpost Hpw) as (Hself & Hstart & Hlaunch).
    destruct Hrest as (Hself2 & Hstart2 & Hlaunch2); [congruence|].
    repeat split; congruence.
Qed.

Lemma initialize_calls (drv : Driver) (w w1 : World) (r : Reply unit) :
  initialize drv w = (r, w1) ->
  (Log.count Log.is_start (log w1) <= Log.count Log.is_start (log w) + 1)%nat /\
  (Log.count Log.is_launch (log w1) <= Log.count Log.is_launch (log w) + 1)%nat /\
  open_pages w1 = open_pages w /\
  (r = Returned tt -> playwright (self w1) <> None).
Proof.
  destruct w as [[b pw] pages l]. destruct pw as [pw|]; open_run; case_run;
    intros [= <- <-]; simpl; repeat split; try lia; congruence.
Qed.

Lemma cleanup_calls (drv : Driver) (w w1 : World) (r : Reply unit) :
  cleanup drv w = (r, w1) ->
  self w1 = self w /\
  Log.count Log.is_start (log w1) = Log.count Log.is_start (log w) /\
  Log.count Log.is_launch (log w1) = Log.count Log.is_launch (log w).
Proof.
  destruct w as [[b pw] pages l]. destruct pw as [pw|]; destruct b as [b|];
    open_run; case_run; intros [= <- <-]; simpl; repeat split.
Qed.

(** X18: over a whole life of the service (start-up, any requests,
    shut-down) the driver is started at most once and a browser launched at
    most once, whatever the driver answers; when the life ends without an
    exception every request has its outcome. *)
Theorem lifespan_launches_once
    (settings : Config.Settings) (drv : Driver)
    (http_url : string -> option string) (requests : list App.Request)
    (w w' : World) (r : Reply (list Main.Outcome)) :
  App.lifespan drv (App.serve settings drv http_url requests) w = (r, w') ->
  (Log.count Log.is_start (log w') <= Log.count Log.is_start (log w) + 1)%nat /\
  (Log.count Log.is_launch (log w') <= Log.count Log.is_launch (log w) + 1)%nat /\
  match r with
  | Returned outcomes => List.length outcomes = List.length requests
  | Raised _ => True
  end.
Proof.
  unfold App.lifespan, bind.
  destruct (initialize drv w) as [[[]|e] w1] eqn:Hinit;
    apply initialize_calls in Hinit as (Hs & Hl & _ & Hpw);
    [|intros [= <- <-]; auto].
  destruct (serve_keeps_session settings drv http_url requests w1)
    as (outcomes & w2 & -> & Hlen & Hkeep).
  destruct (Hkeep (Hpw eq_refl)) as (_ & Hs2 & Hl2).
  destruct (cleanup drv w2) as [[[]|e] w3] eqn:Hclean;
    apply cleanup_calls in Hclean as (_ & Hs3 & Hl3);
    unfold ret; intros [= <- <-]; repeat split; try lia; exact Hlen.
Qed.

Lemma lifespan_launches_once_witness :
  (Log.count Log.is_launch
     (log (snd (App.lifespan Scenario.cooperative
                  (App.serve (Config.load ∅) Scenario.cooperative
                     Scenario.accept_any Demo.two_requests)
                  Scenario.fresh))) <= 1)%nat.
Proof.
  match goal with
  | |- (Log.count _ (log (snd ?run)) <= 1)%nat =>
      destruct (lifespan_launches_once _ _ _ _ _ _ _ (surjective_pairing run))
        as (_ & H & _)
  end.
  exact H.
Defined.

(** X11: a launch that failed is never tried again.  The session is left
    with a driver and no browser; from then on [initialize] does nothing
    and every capture, whatever the driver would answer, makes no driver
    call and returns the failure result of the missing browser. *)
Theorem failed_launch_is_permanent
    (drv : Driver) (w : World) (pw : Handle) (e : PyExn) :
  playwright (self w) = None ->
  browser (self w) = None ->
  answer_handle drv (AsyncPlaywrightStart :: log w) = Returned pw ->
  answer_handle drv (ChromiumLaunch pw true :: AsyncPlaywrightStart :: log w)
  = Raised e ->
  exists w1,
    initialize drv w = (Raised e, w1) /\
    self w1 = {| browser := None; playwright := Some pw |} /\
    forall drv' url width height wait_time wait_for_selector full_page,
      initialize drv' w1 = (Returned tt, w1) /\
      exists t,
        capture_screenshot drv' url width height wait_time wait_for_selector
          full_page w1
        = (Returned (failure_result "Browser not initialized" t url), w1).
Proof.
  destruct w as [[b pw0] pages l]. simpl. intros -> -> Hstart Hlaunch.
  eexists. split; [|split].
  - open_run. rewrite Hstart. simpl. rewrite Hlaunch. reflexivity.
  - reflexivity.
  - intros drv' url width height wait_time wait_for_selector full_page.
    split; [reflexivity|]. eexists. open_run. reflexivity.
Qed.

Lemma failed_launch_is_permanent_witness :
  exists w1,
    initialize Demo.launch_fails Scenario.fresh
    = (Raised {| exn_class := "Error"; exn_text := "Executable doesn't exist" |}, w1) /\
    exists t,
      capture_screenshot Scenario.cooperative "https://www.easydis.io/" 1920 1080 0
        None false w1
      = (Returned (failure_result "Browser not initialized" t "https://www.easydis.io/"),
         w1).
Proof.
  destruct (failed_launch_is_permanent Demo.launch_fails Scenario.fresh 1%nat
              {| exn_class := "Error"; exn_text := "Executable doesn't exist" |})
    as (w1 & Hinit & _ & Hlater); try reflexivity.
  exists w1. split; [exact Hinit|].
  apply (Hlater Scenario.cooperative "https://www.easydis.io/" 1920 1080 0 None false).
Defined.

(** ** Shut-down *)

(** X12: [cleanup] never resets the handles of the session, so that a later
    [initialize] takes the session for a running one and makes no driver
    call.  On a service that never started it does nothing; otherwise it
    closes the browser, with its pages, then stops the driver; when closing
    the browser raises, the driver is not stopped. *)
Theorem cleanup_keeps_handles (drv : Driver) (w : World) :
  self (snd (cleanup drv w)) = self w /\
  (playwright (self w) <> None ->
   forall drv',
     initialize drv' (snd (cleanup drv w)) = (Returned tt, snd (cleanup drv w))) /\
  (browser (self w) = None -> playwright (self w) = None ->
   cleanup drv w = (Returned tt, w)) /\
  (forall b pw,
     browser (self w) = Some b -> playwright (self w) = Some pw ->
     answer_unit drv (BrowserClose b :: log w) = Returned tt ->
     log (snd (cleanup drv w)) = PlaywrightStop pw :: BrowserClose b :: log w /\
     open_pages (snd (cleanup drv w)) = []) /\
  (forall b e,
     browser (self w) = Some b ->
     answer_unit drv (BrowserClose b :: log w) = Raised e ->
     cleanup drv w = (Raised e, set_log (BrowserClose b :: log w) w)).
Proof.
  destruct w as [[b pw] pages l]. simpl. split; [|split; [|split; [|split]]].
  - destruct pw as [pw|]; destruct b as [b|]; open_run; case_run; reflexivity.
  - intros Hpw drv'. destruct pw as [pw|]; [|congruence].
    destruct b as [b|]; open_run; case_run; reflexivity.
  - intros -> ->. reflexivity.
  - intros b' pw' -> -> H. open_run. rewrite H. simpl.
    destruct (answer_unit drv (PlaywrightStop pw' :: BrowserClose b' :: l));
      split; reflexivity.
  - intros b' e -> H. open_run. rewrite H. reflexivity.
Qed.

Lemma cleanup_keeps_handles_witness :
  cleanup Demo.close_fails Demo.running
  = (Raised {| exn_class := "Error"; exn_text := "Browser has been closed" |},
     set_log (BrowserClose 2%nat :: log Demo.running) Demo.running).
Proof.
  destruct (cleanup_keeps_handles Demo.close_fails Demo.running)
    as (_ & _ & _ & _ & H).
  apply (H 2%nat); reflexivity.
Defined.

(** ** The health endpoint *)



(** ** The calls of a capture *)

(** X6: every driver call a capture makes carries the arguments of the
    request and the literals of the code: the viewport is the requested
    width and height, navigation goes to the requested URL with
    [domcontentloaded] and 60000 ms, the selector is waited for 30000 ms,
    the fixed wait is the requested one, the screenshot is a PNG with the
    requested [full_page]; the driver is started and the browser launched,
    headless, only while the driver handle is unset; the browser is never
    closed and the driver never stopped. *)
Theorem capture_call_arguments
    (drv : Driver) (url : string) (width height wait_time : Z)
    (wait_for_selector : option string) (full_page : bool) (w : World) :
  Log.grows
    (Log.capture_call (self w) url width height wait_time wait_for_selector full_page)
    (log w)
    (log (snd (capture_screenshot drv url width height wait_time
                 wait_for_selector full_page w))).
Proof.
  destruct (capture_screenshot drv url width height wait_time wait_for_selector
              full_page w) as [r w'] eqn:E.
  apply capture_calls in E as (H & _). exact H.
Qed.

Lemma capture_call_skips
    (session : ScreenshotService) (url : string) (width height wait_time : Z)
    (wait_for_selector : option string) (full_page : bool) (c : Call) :
  Log.capture_call session url width height wait_time wait_for_selector full_page c ->
  (wait_time <= 0 -> Log.is_wait_for_timeout c = false) /\
  (Py.truthy_str wait_for_selector = false ->
   Log.is_wait_for_selector c = false /\ Log.is_evaluate c = false).
Proof.
  destruct c; simpl; auto.
  - intros (-> & Hne & _). split; [auto|]. simpl.
    apply String.eqb_neq in Hne. rewrite Hne. discriminate.
  - intros (_ & H). split; [lia | auto].
  - intros (selector & -> & Hne & _). split; [auto|]. simpl.
    apply String.eqb_neq in Hne. rewrite Hne. discriminate.
Qed.

(** X7: a capture with [wait_time] zero or negative makes no fixed wait;
    with no selector, or an empty one, it neither waits for a selector nor
    counts elements; in every case it opens at most one page and takes at
    most one screenshot. *)
Theorem capture_skips_what_is_not_asked
    (drv : Driver) (url : string) (width height wait_time : Z)
    (wait_for_selector : option string) (full_page : bool) (w : World) :
  let after :=
    log (snd (capture_screenshot drv url width height wait_time
                wait_for_selector full_page w)) in
  (wait_time <= 0 ->
   Log.count Log.is_wait_for_timeout after
   = Log.count Log.is_wait_for_timeout (log w)) /\
  (Py.truthy_str wait_for_selector = false ->
   Log.count Log.is_wait_for_selector after
   = Log.count Log.is_wait_for_selector (log w) /\
   Log.count Log.is_evaluate after = Log.count Log.is_evaluate (log w)) /\
  (Log.count Log.is_new_page after <= Log.count Log.is_new_page (log w) + 1)%nat /\
  (Log.count Log.is_screenshot after
   <= Log.count Log.is_screenshot (log w) + 1)%nat.
Proof.
  destruct (capture_screenshot drv url width height wait_time wait_for_selector
              full_page w) as [r w'] eqn:E.
  apply capture_calls in E as (H & _ & Hpage & Hshot & _). simpl.
  split; [|split; [|split; assumption]].
  - intros Ht. eapply grows_count; [|exact H].
    intros c Hc. apply capture_call_skips in Hc as [Hc _]. auto.
  - intros Hs. split; (eapply grows_count; [|exact H]);
      intros c Hc; apply capture_call_skips in Hc as [_ Hc]; apply Hc; exact Hs.
Qed.

(** X8: on a session whose driver handle is set, a capture leaves the
    handles of the session as they are and neither starts the driver nor
    launches a browser, whatever the driver answers. *)
Theorem capture_keeps_session
    (drv : Driver) (url : string) (width height wait_time : Z)
    (wait_for_selector : option string) (full_page : bool) (w : World) :
  playwright (self w) <> None ->
  let w' := snd (capture_screenshot drv url width height wait_time
                   wait_for_selector full_page w) in
  self w' = self w /\
  Log.count Log.is_start (log w') = Log.count Log.is_start (log w) /\
  Log.count Log.is_launch (log w') = Log.count Log.is_launch (log w).
Proof.
  intros Hpw.
  destruct (capture_screenshot drv url width height wait_time wait_for_selector
              full_page w) as [r w'] eqn:E.
  apply capture_calls in E as (H & Hself & _). simpl.
  split; [auto|].
  split; (eapply grows_count; [|exact H]);
    intros c Hc; eapply capture_call_not_start; eassumption.
Qed.

Lemma capture_keeps_session_witness :
  self (snd (capture_screenshot Scenario.cooperative "https://www.easydis.io/"
               1920 1080 0 None false Demo.running))
  = self Demo.running.
Proof.
  destruct (capture_keeps_session Scenario.cooperative "https://www.easydis.io/"
              1920 1080 0 None false Demo.running) as (H & _).
  - discriminate.
  - exact H.
Defined.

(** ** The items of a result *)


(** X9: every result a capture returns has the requested URL and the
    elapsed milliseconds in its metadata.  It is either a success, with no
    [error], the base64 text of the bytes the screenshot call returned,
    their number as [image_size_bytes] and the requested dimensions; or a
    failure, with an [error] text and no [image_base64]. *)
Theorem capture_result_items
    (drv : Driver) (url : string) (width height wait_time : Z)
    (wait_for_selector : option string) (full_page : bool)
    (w w' : World) (result : Py.value) :
  capture_screenshot drv url width height wait_time wait_for_selector full_page w
  = (Returned result, w') ->
  Result.metadata_item "url" result = Some (Py.VStr url) /\
  (exists t, Result.metadata_item "capture_time_ms" result = Some (Py.VInt t)) /\
  ((Py.get "success" result = Some (Py.VBool true) /\
    Py.get "error" result = None /\
    Result.metadata_item "dimensions" result
    = Some (Py.VDict [("width", Py.VInt width); ("height", Py.VInt height)]) /\
    exists data p l,
      answer_bytes drv (PageScreenshot p "png" full_page :: l) = Returned data /\
      Py.get "image_base64" result = Some (Py.VStr (Py.b64encode data)) /\
      Result.metadata_item "image_size_bytes" result
      = Some (Py.VInt (Z.of_nat (List.length data)))) \/
   (Py.get "success" result = Some (Py.VBool false) /\
    Py.get "image_base64" result = None /\
    exists text, Py.get "error" result = Some (Py.VStr text))).
Proof.
  intros H. apply capture_result_shape in H
    as (t & l_end & [(data & pc & p & l & Hdata & _ & ->) | (text & ->)] & _ & _).
  - split; [reflexivity|]. split; [eexists; reflexivity|]. left.
    repeat split. exists data, p, l. auto.
  - split; [reflexivity|]. split; [eexists; reflexivity|]. right.
    repeat split. eauto.
Qed.

(** X10: when the clock does not run backwards, [capture_time_ms] is never
    negative. *)
Theorem capture_time_not_negative
    (drv : Driver) (url : string) (width height wait_time : Z)
    (wait_for_selector : option string) (full_page : bool)
    (w w' : World) (result : Py.value) :
  Log.monotone_clock drv ->
  capture_screenshot drv url width height wait_time wait_for_selector full_page w
  = (Returned result, w') ->
  exists t, Result.metadata_item "capture_time_ms" result = Some (Py.VInt t) /\ 0 <= t.
Proof.
  intros Hclock H. apply capture_result_shape in H
    as (t & l_end & Hshape & -> & Hgrows).
  eexists. split.
  - destruct Hshape as [(data & pc & p & l & _ & _ & ->) | (text & ->)];
      reflexivity.
  - apply elapsed_ms_nonneg. eapply grows_clock; eassumption.
Qed.

(** ** What validation lets through *)

Lemma int_field_in_range (dflt lo hi : Z) (raw : option Z) :
  ~ Models.out_of_range lo hi raw ->
  Models.int_field dflt lo hi raw = Some (default dflt raw).
Proof.
  intros H. unfold Models.int_field. destruct raw as [n|]; [|reflexivity].
  destruct (lo <=? n) eqn:Hlo; destruct (n <=? hi) eqn:Hhi; simpl;
    try reflexivity; destruct H; exists n; split; auto;
    rewrite ?Z.leb_gt in *; lia.
Qed.

(** X3: validation turns down nothing that is well typed and within the
    bounds: a JSON body whose fields, where present, have the JSON types
    their declarations name (a string for [url], a string or [null] for
    [wait_for_selector], integers for [width], [height] and [wait_time], a
    boolean for [full_page]), whose URL parses and whose [width], [height]
    and [wait_time] are absent or in range is accepted, with the values it
    gave and the defaults 1920, 1080, 10000 and false for what it left
    out. *)
Theorem validate_accepts
    (http_url : string -> option string) (object : gmap string Models.Json)
    (b : Models.Body) (u : string) :
  Models.read_body object = Some b ->
  Models.check_url http_url (Models.body_url b) = Some u ->
  ~ Models.out_of_range 800 3840 (Models.body_width b) ->
  ~ Models.out_of_range 600 2160 (Models.body_height b) ->
  ~ Models.out_of_range 0 60000 (Models.body_wait_time b) ->
  Models.body_url b = (object !! "url") ≫= Models.as_str /\
  Models.body_width b = (object !! "width") ≫= Models.as_int /\
  Models.body_height b = (object !! "height") ≫= Models.as_int /\
  Models.body_wait_time b = (object !! "wait_time") ≫= Models.as_int /\
  Models.body_wait_for_selector b
  = (object !! "wait_for_selector") ≫= Models.as_str /\
  Models.body_full_page b = (object !! "full_page") ≫= Models.as_bool /\
  Models.validate http_url b
  = inr {| Models.url := u;
           Models.width := default 1920 (Models.body_width b);
           Models.height := default 1080 (Models.body_height b);
           Models.wait_time := default 10000 (Models.body_wait_time b);
           Models.wait_for_selector := Models.body_wait_for_selector b;
           Models.full_page := default false (Models.body_full_page b) |}.
Proof.
  intros Hread Hu Hw Hh Ht.
  assert (forall A (as_type : Models.Json -> option A) raw x,
            Models.typed_field as_type raw = Some x -> x = raw ≫= as_type)
    as Htyped.
  { intros A as_type [j|] x; simpl; [|intros [= <-]; reflexivity].
    destruct (as_type j); [intros [= <-]; reflexivity | discriminate]. }
  assert (forall raw x,
            Models.nullable_str raw = Some x -> x = raw ≫= Models.as_str)
    as Hoptional.
  { intros [[]|] x; simpl; intros [= <-]; reflexivity. }
  unfold Models.read_body in Hread.
  destruct (Models.typed_field Models.as_str (object !! "url")) as [fu|] eqn:Eu;
    [|discriminate].
  destruct (Models.typed_field Models.as_int (object !! "width")) as [fw|] eqn:Ew;
    [|discriminate].
  destruct (Models.typed_field Models.as_int (object !! "height")) as [fh|] eqn:Eh;
    [|discriminate].
  destruct (Models.typed_field Models.as_int (object !! "wait_time")) as [ft|] eqn:Et;
    [|discriminate].
  destruct (Models.nullable_str (object !! "wait_for_selector")) as [fs|] eqn:Es;
    [|discriminate].
  destruct (Models.typed_field Models.as_bool (object !! "full_page")) as [fp|] eqn:Ep;
    [|discriminate].
  injection Hread as <-. simpl in *.
  apply Htyped in Eu, Ew, Eh, Et, Ep. apply Hoptional in Es.
  repeat (split; [assumption|]).
  unfold Models.validate, Models.check_width, Models.check_height,
    Models.check_wait_time. simpl.
  rewrite Hu, (int_field_in_range _ _ _ _ Hw), (int_field_in_range _ _ _ _ Hh),
    (int_field_in_range _ _ _ _ Ht).
  reflexivity.
Qed.

Lemma validate_accepts_witness :
  Models.validate Scenario.accept_any
    {| Models.body_url := Some "https://www.easydis.io/";
       Models.body_width := Some 800; Models.body_height := None;
       Models.body_wait_time := Some 60000;
       Models.body_wait_for_selector := None; Models.body_full_page := None |}
  = inr {| Models.url := "https://www.easydis.io/"; Models.width := 800;
           Models.height := 1080; Models.wait_time := 60000;
           Models.wait_for_selector := None; Models.full_page := false |}.
Proof.
  destruct (validate_accepts Scenario.accept_any
              (<["url" := Models.JStr "https://www.easydis.io/"]>
                 (<["width" := Models.JInt 800]>
                    (<["wait_time" := Models.JInt 60000]>
                       (<["wait_for_selector" := Models.JNull]> ∅))))
              {| Models.body_url := Some "https://www.easydis.io/";
                 Models.body_width := Some 800; Models.body_height := None;
                 Models.body_wait_time := Some 60000;
                 Models.body_wait_for_selector := None;
                 Models.body_full_page := None |}
              "https://www.easydis.io/") as (_ & _ & _ & _ & _ & _ & H).
  - vm_compute. reflexivity.
  - reflexivity.
  - intros (n & [= <-] & H). lia.
  - intros (n & [=] & _).
  - intros (n & [= <-] & H). lia.
  - exact H.
Defined.

(** X17: on a session whose driver handle is set, serving any requests one
    after the other gives every request its outcome, leaves the handles of
    the session as they are and neither starts the driver nor launches a
    browser again. *)
Theorem serving_keeps_session
    (settings : Config.Settings) (drv : Driver)
    (http_url : string -> option string) (requests : list App.Request)
    (w : World) :
  playwright (self w) <> None ->
  exists outcomes w',
    App.serve settings drv http_url requests w = (Returned outcomes, w') /\
    List.length outcomes = List.length requests /\
    self w' = self w /\
    Log.count Log.is_start (log w') = Log.count Log.is_start (log w) /\
    Log.count Log.is_launch (log w') = Log.count Log.is_launch (log w).
Proof.
  intros Hpw.
  destruct (serve_keeps_session settings drv http_url requests w)
    as (outcomes & w' & Hrun & Hlen & Hkeep).
  exists outcomes, w'. destruct (Hkeep Hpw) as (Hself & Hs & Hl). auto.
Qed.

Lemma serving_keeps_session_witness :
  exists outcomes w',
    App.serve (Config.load ∅) Scenario.cooperative Scenario.accept_any
      Demo.two_requests Demo.running = (Returned outcomes, w') /\
    List.length outcomes = 2%nat /\
    self w' = self Demo.running.
Proof.
  destruct (serving_keeps_session (Config.load ∅) Scenario.cooperative
              Scenario.accept_any Demo.two_requests Demo.running)
    as (outcomes & w' & Hrun & Hlen & Hself & _).
  - discriminate.
  - exists outcomes, w'. auto.
Defined.

Lemma browser_touched_only_after_checks_witness :
  exists key request,
    Auth.verify_api_key (Config.load ∅)
      (Auth.api_key_header (App.x_api_key (Demo.request_for "https://www.easydis.io/")))
    = inr key /\
    Models.validate Scenario.accept_any
      (App.body (Demo.request_for "https://www.easydis.io/")) = inr request /\
    Config.is_domain_allowed (Config.load ∅) (Models.url request) = true.
Proof.
  apply (browser_touched_only_after_checks (Config.load ∅) Scenario.cooperative
           Scenario.accept_any _ _ Scenario.fresh).
  vm_compute. discriminate.
Defined.

Lemma cooperative_clock_monotone : Log.monotone_clock Scenario.cooperative.
Proof.
  intros c l. unfold Scenario.cooperative, Scenario.ticking, clock.
  rewrite <- Zle_Qle. simpl List.length. lia.
Qed.

Lemma capture_result_items_witness :
  match capture_screenshot Scenario.cooperative "https://www.easydis.io/"
          1920 1080 0 None false Scenario.fresh with
  | (Returned result, _) =>
      Result.metadata_item "url" result = Some (Py.VStr "https://www.easydis.io/")
  | (Raised _, _) => False
  end.
Proof.
  destruct (capture_screenshot Scenario.cooperative "https://www.easydis.io/"
              1920 1080 0 None false Scenario.fresh) as [[result|e] w'] eqn:E.
  - exact (proj1 (capture_result_items _ _ _ _ _ _ _ _ _ _ E)).
  - vm_compute in E. discriminate E.
Defined.

Lemma capture_time_not_negative_witness :
  match capture_screenshot Scenario.cooperative "https://www.easydis.io/"
          1920 1080 0 None false Scenario.fresh with
  | (Returned result, _) =>
      exists t, Result.metadata_item "capture_time_ms" result = Some (Py.VInt t) /\ 0 <= t
  | (Raised _, _) => False
  end.
Proof.
  destruct (capture_screenshot Scenario.cooperative "https://www.easydis.io/"
              1920 1080 0 None false Scenario.fresh) as [[result|e] w'] eqn:E.
  - exact (capture_time_not_negative _ _ _ _ _ _ _ _ _ _
             cooperative_clock_monotone E).
  - vm_compute in E. discriminate E.
Defined.
